(** * dateTimeUtils: calendar conversions of [src/dateTimeUtils.js]

    A shallow embedding of the JavaScript module [dateTimeUtils] and the
    verification of its documented properties.

    Numbers.  Every number the module handles in the properties below is an
    integer, [NaN], or the quotient of two integers.  A JavaScript number is
    therefore modelled by [value]: [Undefined] (an omitted argument or a
    missing array element), [NaN], or [Int z] with [z : Z].  Integer
    arithmetic on IEEE doubles is exact below 2^53, so [Int] carries an
    unbounded [Z]; the 32-bit wrap-around of [>> 0] is written out in
    [ToInt32].  The operator [/] yields a [real]: the exact quotient as a
    reduced fraction (a double holds it exactly whenever it is representable,
    which is the case for every quotient the properties name).

    This embedding computes what the module computes as long as every
    number on the way stays within 2^53 in magnitude: there the sums,
    differences and products of doubles are exact, and the correctly rounded
    quotient of an integer by a positive integer has the exact floor.  Beyond
    2^53 the doubles round; module [F64] gives the two conversions on
    binary64 numbers themselves, and the statements about magnitudes carry
    the bound within which the two readings coincide ([jd_trace_exact],
    [year_of_range], [ymd_trace_exact], [jd_of_range]). *)

From Stdlib Require Import ZArith QArith Qround Qreduction Lia Bool List.
From Stdlib Require Import Ascii String DecimalString DecimalZ.
From Stdlib Require PrimFloat FloatOps SpecFloat Uint63.
From stdpp Require Import gmap.
Import ListNotations.

Local Open Scope Z_scope.

(** ** JavaScript values *)

Inductive value : Type :=
| Undefined
| NaN
| Int (z : Z).

(** The result of a division: not-a-number, or an exact rational. *)
Inductive real : Type :=
| RNaN
| Real (q : Q).

Module JS.

(** [ToNumber]: the unary [+] of the source. *)
Definition ToNumber (v : value) : value :=
  match v with
  | Undefined => NaN
  | _ => v
  end.

(** Lifting of an integer operation, [NaN] (and [undefined]) absorbing.
    The double of the source is this integer while the operands and the
    result stay within 2^53 in magnitude; beyond, it is rounded. *)
Definition lift2 (f : Z -> Z -> Z) (x y : value) : value :=
  match x, y with
  | Int a, Int b => Int (f a b)
  | _, _ => NaN
  end.

Definition add : value -> value -> value := lift2 Z.add.
Definition sub : value -> value -> value := lift2 Z.sub.
Definition mul : value -> value -> value := lift2 Z.mul.

(** [x / y].  The source only divides by non-zero literals; a zero divisor
    (JavaScript: an infinity or [NaN]) is rendered as [RNaN].  The quotient
    is kept exact; the double of the source is its correct rounding, which
    has the same floor and the same truncation while the numerator stays
    within 2^53 in magnitude. *)
Definition div (x y : value) : real :=
  match x, y with
  | Int a, Int b =>
      if b =? 0 then RNaN else Real (Qred (inject_Z a / inject_Z b))
  | _, _ => RNaN
  end.

(** [x + r] where [r] is a quotient. *)
Definition radd (x : value) (r : real) : real :=
  match x, r with
  | Int a, Real q => Real (Qred (inject_Z a + q))
  | _, _ => RNaN
  end.

(** [Math.floor]. *)
Definition Math_floor (r : real) : value :=
  match r with
  | RNaN => NaN
  | Real q => Int (Qfloor q)
  end.

(** Truncation toward zero, the first step of [ToInt32]. *)
Definition Qtrunc (q : Q) : Z :=
  if Qnum q <? 0 then Qceiling q else Qfloor q.

(** [ToInt32] on an integer: reduction modulo 2^32 into [-2^31, 2^31). *)
Definition ToInt32 (z : Z) : Z :=
  (z + 2147483648) mod 4294967296 - 2147483648.

(** [r >> 0]: [NaN] becomes 0, anything else is truncated and wrapped. *)
Definition shr0 (r : real) : value :=
  match r with
  | RNaN => Int 0
  | Real q => Int (ToInt32 (Qtrunc q))
  end.

(** [x % y] on integers: the remainder has the sign of the dividend. *)
Definition rem (x y : value) : value :=
  match x, y with
  | Int a, Int b => if b =? 0 then NaN else Int (Z.rem a b)
  | _, _ => NaN
  end.

(** Truthiness: [undefined], [NaN] and [0] are falsy. *)
Definition truthy (v : value) : bool :=
  match v with
  | Int z => negb (z =? 0)
  | _ => false
  end.

(** [x || y]. *)
Definition or (x y : value) : value := if truthy x then x else y.

(** Comparisons; any comparison with [NaN] is false. *)
Definition lt (x y : value) : bool :=
  match x, y with
  | Int a, Int b => a <? b
  | _, _ => false
  end.

Definition gt (x y : value) : bool := lt y x.

Definition ge (x y : value) : bool :=
  match x, y with
  | Int a, Int b => b <=? a
  | _, _ => false
  end.

(** [x === y] on numbers. *)
Definition seq (x y : value) : bool :=
  match x, y with
  | Int a, Int b => a =? b
  | Undefined, Undefined => true
  | _, _ => false
  end.

(** [arr[i]]: [undefined] outside the array. *)
Definition idx (arr : list value) (i : nat) : value := nth i arr Undefined.

(** [f.apply(null, arr)] for a function of three parameters. *)
Definition apply3 {A} (f : value -> value -> value -> A) (arr : list value) : A :=
  f (idx arr 0) (idx arr 1) (idx arr 2).

End JS.

Declare Scope js_scope.
Delimit Scope js_scope with js.
Infix "+" := JS.add : js_scope.
Infix "-" := JS.sub : js_scope.
Infix "*" := JS.mul : js_scope.
Infix "/" := JS.div : js_scope.
Infix "%" := JS.rem (at level 40, left associativity) : js_scope.
Infix "||" := JS.or : js_scope.
Coercion Int : Z >-> value.

(** ** The conversions between civil dates and Julian Days *)

(** [JDtoYMD], lines 111-124. *)
Definition JDtoYMD (JD : value) : list value :=
  (let a := JD + 32044 in
   let b := JS.Math_floor ((4 * a + 3) / 146097) in
   let c := a - JS.Math_floor (146097 * b / 4) in
   let d := JS.Math_floor ((4 * c + 3) / 1461) in
   let e := c - JS.Math_floor (1461 * d / 4) in
   let m := JS.Math_floor ((5 * e + 2) / 153) in
   let mnth := m + 3 - 12 * JS.Math_floor (m / 10) in
   let day := e - JS.Math_floor ((153 * m + 2) / 5) + 1 in
   [ 100 * b + d - 4800 + JS.Math_floor (m / 10); mnth; day ])%js.

(** [YMDtoJD], lines 146-153. *)
Definition YMDtoJD (year month day : value) : value :=
  (let month := month || 1 in
   let a := JS.Math_floor ((14 - month) / 12) in
   let y := JS.ToNumber year + 4800 - a in
   let m := JS.ToNumber month + 12 * a - 3 in
   (JS.ToNumber day || 1) + JS.Math_floor ((153 * m + 2) / 5) + 365 * y
     + JS.Math_floor (y / 4) - JS.Math_floor (y / 100)
     + JS.Math_floor (y / 400) - 32045)%js.

(** ** Strings *)

Module Str.

Local Open Scope string_scope.

(** [String(v)] / concatenation of a number with a string: the decimal
    numeral of an integer (exact for magnitudes below 1e21). *)
Definition ToString (v : value) : string :=
  match v with
  | Undefined => "undefined"
  | NaN => "NaN"
  | Int z => NilZero.string_of_int (Z.to_int z)
  end.

(** [Number(s)] on the alphabet of ISO dates and times: the empty string is
    0, an optionally signed run of decimal digits is its value (the double
    of the source holds it exactly up to 2^53), anything else is [NaN].
    (White space, fractions, exponents and hexadecimal numerals do not occur
    in that alphabet and are not recognised.) *)
Definition Number (s : string) : value :=
  match s with
  | "" => Int 0
  | String c s' =>
      if Ascii.eqb c "+" then
        match NilZero.uint_of_string s' with
        | Some d => Int (Z.of_uint d)
        | None => NaN
        end
      else
        match NilZero.int_of_string s with
        | Some d => Int (Z.of_int d)
        | None => NaN
        end
  end.

(** Unary [+] applied to an array element that may be missing. *)
Definition ToNumber (o : option string) : value :=
  match o with
  | None => NaN
  | Some s => Number s
  end.

(** [s.split(sep)] for a one-character separator. *)
Fixpoint split (sep : ascii) (s : string) : list string :=
  match s with
  | "" => [""]
  | String c s' =>
      if Ascii.eqb c sep then "" :: split sep s'
      else match split sep s' with
           | h :: t => String c h :: t
           | [] => [String c ""]
           end
  end.

(** [s.indexOf(c)]: the position of the first occurrence, or -1. *)
Fixpoint indexOf (c : ascii) (s : string) : Z :=
  match s with
  | "" => (-1)%Z
  | String c' s' =>
      if Ascii.eqb c' c then 0%Z
      else let i := indexOf c s' in (if i <? 0 then -1 else i + 1)%Z
  end.

(** [s.substr(1)]. *)
Definition substr1 (s : string) : string :=
  match s with
  | "" => ""
  | String _ s' => s'
  end.

End Str.

(** [~x] on a 32-bit integer. *)
Definition bitnot (z : Z) : Z := - z - 1.

(** [pad_], lines 99-101. *)
Definition pad_ (n : value) : string :=
  if JS.lt n 10 then ("0" ++ Str.ToString n)%string else (Str.ToString n ++ "")%string.

(** ** Day of week and ISO weeks *)

(** [YMDtoDayOfWeek], lines 351-358. *)
Definition YMDtoDayOfWeek (year month day : value) : value :=
  (let m := JS.shr0 ((14 - month) / 12) in
   let y := year + 4800 - m in
   let r := (day + JS.shr0 ((153 * (month + 12 * m - 3) + 2) / 5) + 365 * y
             + JS.shr0 (y / 4) - JS.shr0 (y / 100) + JS.shr0 (y / 400) - 32045) % 7 + 1 in
   if JS.seq r 7 then Int 0 else r)%js.

(** [YWDoWtoJD], lines 163-169. *)
Definition YWDoWtoJD (year week dow : value) : value :=
  (let dowby := YMDtoDayOfWeek year 1 1 || 7 in
   let jd := if JS.gt dowby 1 && JS.lt dowby 5
             then YMDtoJD (year - 1) 12 (33 - dowby)
             else YMDtoJD year 1 (if JS.seq dowby 1 then Int 1 else 9 - dowby) in
   jd + 7 * (week - 1) + (dow || 1) - 1)%js.

(** [YMDtoYWd_], lines 80-92. *)
Definition YMDtoYWd_ (year month day : value) : list value :=
  (let tjd := YMDtoJD year month day in
   let fwjd := YWDoWtoJD year 1 Undefined in
   let fwnyjd := YWDoWtoJD (year + 1) 1 Undefined in
   if JS.ge tjd fwnyjd then
     [ year + 1; Int 1; 1 + (tjd - fwnyjd) % 7 ]
   else
     let '(year, fwjd) :=
       if JS.lt tjd fwjd
       then (JS.ToNumber year - 1, YWDoWtoJD (JS.ToNumber year - 1) 1 Undefined)
       else (year, fwjd) in
     [ year; JS.shr0 (JS.radd 1 ((tjd - fwjd) / 7)); 1 + (tjd - fwjd) % 7 ])%js.

(** [YDMtoISO_YW], lines 313-316. *)
Definition YDMtoISO_YW (year month day : value) : string :=
  let d := YMDtoYWd_ year month day in
  (Str.ToString (JS.idx d 0) ++ "-W"
   ++ (if JS.lt (JS.idx d 1) 10 then "0" ++ Str.ToString (JS.idx d 1)
       else Str.ToString (JS.idx d 1)))%string.

(** [YDMtoISO_YWD], lines 326-329. *)
Definition YDMtoISO_YWD (year month day : value) : string :=
  let d := YMDtoYWd_ year month day in
  (Str.ToString (JS.idx d 0) ++ "-W"
   ++ (if JS.lt (JS.idx d 1) 10 then "0" ++ Str.ToString (JS.idx d 1)
       else Str.ToString (JS.idx d 1))
   ++ "-" ++ Str.ToString (JS.idx d 2))%string.

(** [YMDtoWeekNumber], lines 339-341. *)
Definition YMDtoWeekNumber (year month day : value) : value :=
  JS.idx (YMDtoYWd_ year month day) 1.

(** [JDtoWeekNumber], lines 133-135. *)
Definition JDtoWeekNumber (JD : value) : value :=
  JS.apply3 YMDtoWeekNumber (JDtoYMD JD).

(** [JDtoDayOfWeek], lines 366-368. *)
Definition JDtoDayOfWeek (JD : value) : value :=
  JS.apply3 YMDtoDayOfWeek (JDtoYMD JD).

(** [ISO_YMDtoDayOfWeek], lines 376-378. *)
Definition ISO_YMDtoDayOfWeek (YYMMDD : string) : value :=
  JS.apply3 YMDtoDayOfWeek (map Str.Number (Str.split "-" YYMMDD)).

(** [JDtoISO_YW], lines 290-292. *)
Definition JDtoISO_YW (JD : value) : string :=
  JS.apply3 YDMtoISO_YW (JDtoYMD JD).

(** ** ISO strings *)

(** [ISOtoJD], lines 177-191.  [None] is the [TypeError] raised by
    [ywd[1].substr] when the text has a [W] but no second [-]-separated
    token. *)
Definition ISOtoJD (ISODate : string) : option value :=
  if JS.truthy (Int (bitnot (Str.indexOf "W" ISODate))) then
    let ywd := Str.split "-" ISODate in
    match nth_error ywd 1 with
    | None => None
    | Some w =>
        Some (YWDoWtoJD (Str.ToNumber (nth_error ywd 0))
                        (Str.Number (Str.substr1 w))
                        (Str.ToNumber (nth_error ywd 2)))
    end
  else
    let ISODate := nth 0 (Str.split "T" ISODate) EmptyString in
    Some (JS.apply3 YMDtoJD (map Str.Number (Str.split "-" ISODate))).

(** [JDtoISO_YMD], lines 268-271. *)
Definition JDtoISO_YMD (JD : value) : string :=
  let ymd := JDtoYMD JD in
  (Str.ToString (JS.idx ymd 0) ++ "-" ++ pad_ (JS.idx ymd 1)
   ++ "-" ++ pad_ (JS.idx ymd 2))%string.

(** [JDtoISO_YM], lines 279-282. *)
Definition JDtoISO_YM (JD : value) : string :=
  let ymd := JDtoYMD JD in
  (Str.ToString (JS.idx ymd 0) ++ "-" ++ pad_ (JS.idx ymd 1))%string.

(** ** Absolute months *)

(** [JDtoADMonth], lines 300-303. *)
Definition JDtoADMonth (JD : value) : value :=
  (let d := JDtoYMD JD in JS.idx d 0 * 12 + JS.idx d 1 - 1)%js.

(** [ISOtoADMonth], lines 458-461. *)
Definition ISOtoADMonth (YM : string) : value :=
  (let s := map Str.Number (Str.split "-" YM) in
   JS.idx s 0 * 12 + (JS.idx s 1 || 1) - 1)%js.

(** [ADMonthToISO_YM], lines 474-476. *)
Definition ADMonthToISO_YM (adMonth : value) : string :=
  (Str.ToString (JS.shr0 (adMonth / 12)%js) ++ "-"
   ++ pad_ (adMonth % 12 + 1)%js)%string.

(** [ADMonthToJD], lines 489-491. *)
Definition ADMonthToJD (adMonth : value) : value :=
  (YMDtoJD (JS.shr0 (adMonth / 12)) (adMonth % 12 + 1) 1)%js.

(** ** Time of day *)

(** [HMtoMinutes], lines 396-398. *)
Definition HMtoMinutes (hours minutes : value) : value :=
  (hours * 60 + (minutes || 0))%js.

(** [HMStoSeconds], lines 408-410. *)
Definition HMStoSeconds (hours minutes seconds : value) : value :=
  (hours * 3600 + (minutes || 0) * 60 + (seconds || 0))%js.

(** [ISO_HMtoMinutes], lines 418-420. *)
Definition ISO_HMtoMinutes (HHMM : string) : value :=
  let a := map Str.Number (Str.split ":" HHMM) in
  HMtoMinutes (JS.idx a 0) (JS.idx a 1).

(** [ISO_HMStoSeconds], lines 428-430. *)
Definition ISO_HMStoSeconds (HHMMSS : string) : value :=
  JS.apply3 HMStoSeconds (map Str.Number (Str.split ":" HHMMSS)).

(** [ISO_HMStoPercents], lines 438-440. *)
Definition ISO_HMStoPercents (HHMMSS : string) : real :=
  (JS.apply3 HMStoSeconds (map Str.Number (Str.split ":" HHMMSS)) * 100 / 86399)%js.

(** [minutesToISO_HM], lines 448-450. *)
Definition minutesToISO_HM (minutes : value) : string :=
  (pad_ (JS.shr0 (minutes / 60)%js) ++ ":" ++ pad_ (minutes % 60)%js)%string.

(** ** Calendar-date objects *)

(** Modelled from the spec: the platform [Date] object, which is not part of
    the repository.  Following the data model of the specification it is a
    wall-clock value with year, month (zero-based), day, hour, minute, second
    and millisecond accessors; [setFullYear] stores year, month and day and
    keeps the time of day, [setHours] stores the time of day and keeps the
    date.  Time zones, daylight saving, the range limit of the platform and
    the normalisation of out-of-range fields are outside this model
    ([JDtoDate] only passes valid civil dates, see [JDtoYMD_valid]). *)
Record DateObj : Type := mkDate {
  getFullYear : value;
  getMonth : value;
  getDate : value;
  getHours : value;
  getMinutes : value;
  getSeconds : value;
  getMilliseconds : value
}.

Definition setFullYear (o : DateObj) (y m d : value) : DateObj :=
  {| getFullYear := y; getMonth := m; getDate := d;
     getHours := getHours o; getMinutes := getMinutes o;
     getSeconds := getSeconds o; getMilliseconds := getMilliseconds o |}.

Definition setHours (o : DateObj) (h m s ms : value) : DateObj :=
  {| getFullYear := getFullYear o; getMonth := getMonth o; getDate := getDate o;
     getHours := h; getMinutes := m; getSeconds := s; getMilliseconds := ms |}.

(** Objects live in a store and are passed by reference. *)
Abbreviation ref := nat (only parsing).
Abbreviation store := (gmap nat DateObj) (only parsing).

(** [new Date]: a fresh object holding the current wall-clock time [now]. *)
Definition Date_new (now : DateObj) (h : store) : ref * store :=
  let l := fresh (dom h) in (l, <[l := now]> h).

Definition Date_setHours (l : ref) (hh mm ss ms : value) (h : store) : store :=
  alter (fun o => setHours o hh mm ss ms) l h.

Definition Date_setFullYear (l : ref) (y m d : value) (h : store) : store :=
  alter (fun o => setFullYear o y m d) l h.

(** [DateToJD], lines 199-201. *)
Definition DateToJD (date : DateObj) : value :=
  YMDtoJD (getFullYear date) (getMonth date + 1)%js (getDate date).

(** [DateToADMonth], lines 209-211. *)
Definition DateToADMonth (date : DateObj) : value :=
  (getFullYear date * 12 + getMonth date)%js.

(** [JDtoDate], lines 220-230.  [date] is the optional reference passed by
    the caller; the result is the reference returned and the store after the
    call. *)
Definition JDtoDate (now : DateObj) (JD : value) (date : option ref) (h : store)
  : ref * store :=
  let ymd := JDtoYMD JD in
  let '(date, h) :=
    match date with
    | Some l => (l, h)
    | None =>
        let '(l, h) := Date_new now h in
        (l, Date_setHours l 0 0 0 0 h)
    end in
  (date, Date_setFullYear date (JS.idx ymd 0) (JS.idx ymd 1 - 1)%js (JS.idx ymd 2) h).

(** [DateToISO_YMD], lines 238-240. *)
Definition DateToISO_YMD (date : DateObj) : string :=
  (Str.ToString (getFullYear date) ++ "-" ++ pad_ (getMonth date + 1)%js
   ++ "-" ++ pad_ (getDate date))%string.

(** [DateToISO_HM], lines 248-250. *)
Definition DateToISO_HM (date : DateObj) : string :=
  (pad_ (getHours date) ++ ":" ++ pad_ (getMinutes date))%string.

(** [DateToISO_HMS], lines 258-260. *)
Definition DateToISO_HMS (date : DateObj) : string :=
  (pad_ (getHours date) ++ ":" ++ pad_ (getMinutes date) ++ ":"
   ++ pad_ (getSeconds date))%string.

(** [DateToMinutes], lines 385-387. *)
Definition DateToMinutes (date : DateObj) : value :=
  (getHours date * 60 + getMinutes date)%js.

(** The time of day of two objects agrees. *)
Definition same_time (a b : DateObj) : Prop :=
  getHours a = getHours b /\ getMinutes a = getMinutes b
  /\ getSeconds a = getSeconds b /\ getMilliseconds a = getMilliseconds b.

(** The time of day is midnight. *)
Definition midnight (a : DateObj) : Prop :=
  getHours a = Int 0 /\ getMinutes a = Int 0
  /\ getSeconds a = Int 0 /\ getMilliseconds a = Int 0.

(** The year, month and day accessors read the triple [ymd]. *)
Definition reads_ymd (a : DateObj) (ymd : list value) : Prop :=
  [getFullYear a; (getMonth a + 1)%js; getDate a] = ymd.

(** ** The Gregorian calendar of the specification *)

(** Gregorian leap years, with the year read astronomically. *)
Definition is_leap (y : Z) : bool :=
  (y mod 4 =? 0) && (negb (y mod 100 =? 0) || (y mod 400 =? 0)).

Definition days_in_month (y m : Z) : Z :=
  if m =? 2 then (if is_leap y then 29 else 28)
  else if (m =? 4) || (m =? 6) || (m =? 9) || (m =? 11) then 30
  else 31.

(** A valid civil date. *)
Definition valid_date (y m d : Z) : Prop :=
  1 <= m <= 12 /\ 1 <= d <= days_in_month y m.

Definition valid_dateb (y m d : Z) : bool :=
  (1 <=? m) && (m <=? 12) && (1 <=? d) && (d <=? days_in_month y m).

(** The Gregorian leap-year rule as arithmetic. *)
Definition leap_cond (y : Z) : Prop :=
  y mod 4 = 0 /\ (y mod 100 <> 0 \/ y mod 400 = 0).

(** ** Numerals in strings *)

(** [absent c s]: the character [c] does not occur in [s]. *)
Fixpoint absent (c : ascii) (s : string) : bool :=
  match s with
  | EmptyString => true
  | String c' s' => negb (Ascii.eqb c' c) && absent c s'
  end.

(** [numeral s n]: [s] is a non-empty run of decimal digits whose value is
    [n] (leading zeros allowed), as in the fields of ISO dates and times. *)
Definition numeralb (s : string) (n : Z) : bool :=
  match s with
  | EmptyString => false
  | _ => match NilEmpty.uint_of_string s with
         | Some u => Z.of_uint u =? n
         | None => false
         end
  end.

Definition numeral (s : string) (n : Z) : Prop := numeralb s n = true.

(** A character that is not a decimal digit. *)
Definition nondigit (c : ascii) : Prop := uint_of_char c (Some Decimal.Nil) = None.

(** ** Integer readings of the two conversions

    On integer arguments the embedded functions compute the following
    integer expressions ([JDtoYMD_Int], [YMDtoJD_Int]). *)
Module ZK.

Definition jd_b (jd : Z) : Z := (4 * (jd + 32044) + 3) / 146097.
Definition jd_c (jd : Z) : Z := jd + 32044 - 146097 * jd_b jd / 4.
Definition c_d (c : Z) : Z := (4 * c + 3) / 1461.
Definition c_e (c : Z) : Z := c - 1461 * c_d c / 4.
Definition c_m (c : Z) : Z := (5 * c_e c + 2) / 153.

Definition year_of (jd : Z) : Z :=
  100 * jd_b jd + c_d (jd_c jd) - 4800 + c_m (jd_c jd) / 10.
Definition month_of (jd : Z) : Z :=
  c_m (jd_c jd) + 3 - 12 * (c_m (jd_c jd) / 10).
Definition day_of (jd : Z) : Z :=
  c_e (jd_c jd) - (153 * c_m (jd_c jd) + 2) / 5 + 1.

Definition jd_of (y m d : Z) : Z :=
  let a := (14 - m) / 12 in
  let y' := y + 4800 - a in
  let m' := m + 12 * a - 3 in
  d + (153 * m' + 2) / 5 + 365 * y' + y' / 4 - y' / 100 + y' / 400 - 32045.

End ZK.

(** Integer reading of the first line of [YWDoWtoJD]: the ISO weekday of
    January 1 and the Julian Day that starts week 1. *)
Definition iso_dow_jan1 (y : Z) : Z :=
  let r := (ZK.jd_of y 1 1 + 1) mod 7 in if r =? 0 then 7 else r.

Definition week1 (y : Z) : Z :=
  let k := iso_dow_jan1 y in
  if (1 <? k) && (k <? 5) then ZK.jd_of (y - 1) 12 (33 - k)
  else ZK.jd_of y 1 (if k =? 1 then 1 else 9 - k).

(** ** The numbers computed on the way

    Every integer the two conversions compute, in the order of the source
    (a quotient is listed by its floor: in magnitude it does not pass its
    numerator); [exact] is the range in which a double holds an integer
    exactly. *)

Definition exact (z : Z) : Prop := Z.abs z <= 9007199254740992.

Definition jd_trace (jd : Z) : list Z :=
  let a := jd + 32044 in
  let b := ZK.jd_b jd in
  let c := ZK.jd_c jd in
  let d := ZK.c_d c in
  let e := ZK.c_e c in
  let m := ZK.c_m c in
  [ a; 4 * a; 4 * a + 3; b;
    146097 * b; 146097 * b / 4; c;
    4 * c; 4 * c + 3; d;
    1461 * d; 1461 * d / 4; e;
    5 * e; 5 * e + 2; m;
    m + 3; m / 10; 12 * (m / 10); m + 3 - 12 * (m / 10);
    153 * m; 153 * m + 2; (153 * m + 2) / 5; e - (153 * m + 2) / 5;
    e - (153 * m + 2) / 5 + 1;
    100 * b; 100 * b + d; 100 * b + d - 4800;
    100 * b + d - 4800 + m / 10 ].

Definition ymd_trace (y m d : Z) : list Z :=
  let a := (14 - m) / 12 in
  let y' := y + 4800 - a in
  let m' := m + 12 * a - 3 in
  let f := (153 * m' + 2) / 5 in
  [ 14 - m; a; y + 4800; y'; 12 * a; m + 12 * a; m';
    153 * m'; 153 * m' + 2; f; d + f;
    365 * y'; d + f + 365 * y';
    y' / 4; d + f + 365 * y' + y' / 4;
    y' / 100; d + f + 365 * y' + y' / 4 - y' / 100;
    y' / 400; d + f + 365 * y' + y' / 4 - y' / 100 + y' / 400;
    d + f + 365 * y' + y' / 4 - y' / 100 + y' / 400 - 32045 ].

(** ** The two conversions on binary64 numbers

    The same source lines over the primitive binary64 numbers of Rocq, with
    the rounding of every operation; used where a magnitude passes 2^53. *)
Module F64.

Import PrimFloat.

(** An integer below 2^63 in magnitude as a double (exact up to 2^53). *)
Definition of_Z (z : Z) : float :=
  if z <? 0 then PrimFloat.opp (PrimFloat.of_uint63 (Uint63.of_Z (- z)))
  else PrimFloat.of_uint63 (Uint63.of_Z z).

(** The value of a double that is an integer. *)
Definition to_Z (x : float) : option Z :=
  match FloatOps.Prim2SF x with
  | SpecFloat.S754_zero _ => Some 0
  | SpecFloat.S754_finite s m e =>
      let v := if s then Z.neg m else Z.pos m in
      if 0 <=? e then Some (v * 2 ^ e)
      else if v mod 2 ^ (- e) =? 0 then Some (v / 2 ^ (- e)) else None
  | _ => None
  end.

(** [Math.floor]: a double [m * 2^e] with [e < 0] is below 2^53 in
    magnitude, and its floor is the floor of the integer division. *)
Definition Math_floor (x : float) : float :=
  match FloatOps.Prim2SF x with
  | SpecFloat.S754_finite s m e =>
      if 0 <=? e then x
      else of_Z ((if s then Z.neg m else Z.pos m) / 2 ^ (- e))
  | _ => x
  end.

(** Truthiness of a number: [NaN] and the zeros are falsy. *)
Definition truthy (x : float) : bool :=
  negb (PrimFloat.is_nan x) && negb (PrimFloat.is_zero x).

(** [x || y]. *)
Definition or (x y : float) : float := if truthy x then x else y.

(** [arr[i]] on an array of numbers that has the element. *)
Definition idx (arr : list float) (i : nat) : float := nth i arr PrimFloat.nan.

(** [JDtoYMD], lines 111-124. *)
Definition JDtoYMD (JD : float) : list float :=
  (let a := JD + 32044 in
   let b := Math_floor ((4 * a + 3) / 146097) in
   let c := a - Math_floor (146097 * b / 4) in
   let d := Math_floor ((4 * c + 3) / 1461) in
   let e := c - Math_floor (1461 * d / 4) in
   let m := Math_floor ((5 * e + 2) / 153) in
   let mnth := m + 3 - 12 * Math_floor (m / 10) in
   let day := e - Math_floor ((153 * m + 2) / 5) + 1 in
   [ 100 * b + d - 4800 + Math_floor (m / 10); mnth; day ])%float.

(** [YMDtoJD], lines 146-153, on three numbers. *)
Definition YMDtoJD (year month day : float) : float :=
  (let month := or month 1 in
   let a := Math_floor ((14 - month) / 12) in
   let y := year + 4800 - a in
   let m := month + 12 * a - 3 in
   (or day 1) + Math_floor ((153 * m + 2) / 5) + 365 * y
     + Math_floor (y / 4) - Math_floor (y / 100)
     + Math_floor (y / 400) - 32045)%float.

End F64.

(** ** Definitions used by the further properties *)

(** The civil date that follows [(y, m, d)]. *)
Definition next_day (y m d : Z) : Z * Z * Z :=
  if d <? days_in_month y m then (y, m, d + 1)
  else if m <? 12 then (y, m + 1, 1)
  else (y + 1, 1, 1).

(** * Proofs *)

Ltac div_lia := Z.div_mod_to_equations; lia.

(** ** Arithmetic of the value model *)

Lemma Qdiv_inject_pos a p :
  (inject_Z a / inject_Z (Zpos p))%Q = (a * 1 # p)%Q.
Proof. reflexivity. Qed.

(** [Math.floor(a / b)] is the floor division of [Z]. *)
Lemma floor_div a b :
  0 < b -> JS.Math_floor (JS.div (Int a) (Int b)) = Int (a / b).
Proof.
  intros Hb. unfold JS.div, JS.Math_floor.
  destruct (Z.eqb_spec b 0) as [->|_]; [lia|].
  f_equal. rewrite (Qfloor_comp _ _ (Qred_correct _)).
  symmetry. apply Zdiv_Qdiv.
Qed.

Lemma Qnum_sign_comp (q1 q2 : Q) :
  (q1 == q2)%Q -> (Qnum q1 <? 0) = (Qnum q2 <? 0).
Proof.
  destruct q1 as [n1 d1], q2 as [n2 d2]. unfold Qeq. simpl. intros H.
  destruct (Z.ltb_spec n1 0), (Z.ltb_spec n2 0); try reflexivity; nia.
Qed.

Lemma Qtrunc_comp (q1 q2 : Q) : (q1 == q2)%Q -> JS.Qtrunc q1 = JS.Qtrunc q2.
Proof.
  intros H. unfold JS.Qtrunc. rewrite (Qnum_sign_comp _ _ H).
  destruct (Qnum q2 <? 0).
  - apply Qceiling_comp, H.
  - apply Qfloor_comp, H.
Qed.

Lemma Qtrunc_quot a p : JS.Qtrunc (a * 1 # p) = Z.quot a (Zpos p).
Proof.
  unfold JS.Qtrunc, Qceiling, Qfloor, Qopp. simpl Qnum. simpl Qden.
  rewrite Z.mul_1_r.
  destruct (Z.ltb_spec a 0) as [Hneg|Hpos].
  - rewrite <- (Z.opp_involutive a) at 2.
    rewrite Z.quot_opp_l by discriminate.
    rewrite Z.quot_div_nonneg by lia. reflexivity.
  - rewrite Z.quot_div_nonneg by lia. reflexivity.
Qed.

(** [a / b >> 0] is the truncated division of [Z], wrapped to 32 bits. *)
Lemma shr0_div a b :
  0 < b -> JS.shr0 (JS.div (Int a) (Int b)) = Int (JS.ToInt32 (Z.quot a b)).
Proof.
  intros Hb. unfold JS.div, JS.shr0.
  destruct (Z.eqb_spec b 0) as [->|_]; [lia|].
  destruct b as [|p|p]; try lia.
  rewrite (Qtrunc_comp _ _ (Qred_correct _)), Qdiv_inject_pos, Qtrunc_quot.
  reflexivity.
Qed.

Lemma ToInt32_small z :
  -2147483648 <= z < 2147483648 -> JS.ToInt32 z = z.
Proof. intros H. unfold JS.ToInt32. rewrite Z.mod_small; lia. Qed.

(** ** The embedded conversions on integers *)

Lemma JDtoYMD_Int (jd : Z) :
  JDtoYMD (Int jd) = [Int (ZK.year_of jd); Int (ZK.month_of jd); Int (ZK.day_of jd)].
Proof.
  unfold JDtoYMD, ZK.year_of, ZK.month_of, ZK.day_of, ZK.c_m, ZK.c_e, ZK.c_d,
    ZK.jd_c, ZK.jd_b, JS.add, JS.sub, JS.mul, JS.lift2.
  repeat (rewrite floor_div by lia). reflexivity.
Qed.

Lemma YMDtoJD_Int (y m d : Z) :
  m <> 0 -> d <> 0 -> YMDtoJD (Int y) (Int m) (Int d) = Int (ZK.jd_of y m d).
Proof.
  intros Hm Hd. unfold YMDtoJD, ZK.jd_of, JS.or, JS.truthy, JS.ToNumber.
  destruct (Z.eqb_spec m 0) as [?|_]; [contradiction|].
  destruct (Z.eqb_spec d 0) as [?|_]; [contradiction|].
  cbn [negb]. unfold JS.add, JS.sub, JS.mul, JS.lift2.
  repeat (rewrite floor_div by lia). reflexivity.
Qed.

(** ** The structure of the day count

    A Julian Day, shifted to the epoch of the algorithm, splits uniquely into
    a century [b], a day [c] of the century, a year [d] of the century, a day
    [e] of the year counted from March 1, and a month [m] counted from
    March. *)

Lemma century_split a b c :
  b = (4 * a + 3) / 146097 -> c = a - 146097 * b / 4 ->
  0 <= c <= 36524 /\ (c = 36524 -> b mod 4 = 3) /\ a = c + 36524 * b + b / 4.
Proof. intros -> ->. div_lia. Qed.

Lemma year_split c d e :
  0 <= c <= 36524 -> d = (4 * c + 3) / 1461 -> e = c - 1461 * d / 4 ->
  0 <= d <= 99 /\ 0 <= e <= 365 /\ (e = 365 -> d mod 4 = 3)
  /\ (e = 365 -> d = 99 -> c = 36524) /\ c = e + 365 * d + d / 4.
Proof. intros Hc -> ->. div_lia. Qed.

Lemma century_unique a b c :
  0 <= c <= 36524 -> (c = 36524 -> b mod 4 = 3) -> a = c + 36524 * b + b / 4 ->
  (4 * a + 3) / 146097 = b /\ a - 146097 * b / 4 = c.
Proof. intros Hc Hl ->. div_lia. Qed.

Lemma year_unique c d e :
  0 <= e <= 365 -> (e = 365 -> d mod 4 = 3) -> c = e + 365 * d + d / 4 ->
  (4 * c + 3) / 1461 = d /\ c - 1461 * d / 4 = e.
Proof. intros He Hl ->. div_lia. Qed.

Lemma is_leap_spec y :
  is_leap y = true <-> y mod 4 = 0 /\ (y mod 100 <> 0 \/ y mod 400 = 0).
Proof.
  unfold is_leap.
  rewrite andb_true_iff, orb_true_iff, negb_true_iff, !Z.eqb_eq, Z.eqb_neq.
  tauto.
Qed.

Lemma valid_dateb_spec y m d : valid_dateb y m d = true <-> valid_date y m d.
Proof.
  unfold valid_dateb, valid_date.
  rewrite !andb_true_iff, !Z.leb_le. tauto.
Qed.

Lemma month_split e m k mon day :
  0 <= e <= 365 -> m = (5 * e + 2) / 153 -> k = m / 10 ->
  mon = m + 3 - 12 * k -> day = e - (153 * m + 2) / 5 + 1 ->
  0 <= m <= 11 /\ 0 <= k <= 1 /\ 1 <= mon <= 12
  /\ (14 - mon) / 12 = k /\ 1 <= day <= 31
  /\ (mon = 2 -> k = 1 /\ day <= 29 /\ (day = 29 -> e = 365))
  /\ (mon = 4 \/ mon = 6 \/ mon = 9 \/ mon = 11 -> day <= 30).
Proof.
  intros He Hm Hk -> ->.
  assert (Hb : 0 <= m <= 11) by div_lia.
  assert (Hcases : m = 0 \/ m = 1 \/ m = 2 \/ m = 3 \/ m = 4 \/ m = 5 \/ m = 6
                   \/ m = 7 \/ m = 8 \/ m = 9 \/ m = 10 \/ m = 11) by lia.
  assert (Hm' : 5 * e + 2 - 152 <= 153 * m <= 5 * e + 2) by div_lia.
  clear Hm.
  repeat (destruct Hcases as [->|Hcases]); try subst m; subst k; div_lia.
Qed.

Lemma month_unique mon d a M E :
  1 <= mon <= 12 -> 1 <= d <= 31 ->
  (mon = 2 -> d <= 29) -> (mon = 4 \/ mon = 6 \/ mon = 9 \/ mon = 11 -> d <= 30) ->
  a = (14 - mon) / 12 -> M = mon + 12 * a - 3 -> E = (153 * M + 2) / 5 + d - 1 ->
  0 <= a <= 1 /\ 0 <= M <= 11 /\ M / 10 = a /\ (5 * E + 2) / 153 = M
  /\ 0 <= E <= 365 /\ (E = 365 -> mon = 2 /\ d = 29).
Proof.
  intros Hm Hd H2 H30 -> -> ->.
  assert (Hcases : mon = 1 \/ mon = 2 \/ mon = 3 \/ mon = 4 \/ mon = 5 \/ mon = 6
                   \/ mon = 7 \/ mon = 8 \/ mon = 9 \/ mon = 10 \/ mon = 11
                   \/ mon = 12) by lia.
  repeat (destruct Hcases as [->|Hcases]); try subst mon; div_lia.
Qed.

Lemma days_in_month_cases y m :
  (m = 2 /\ leap_cond y /\ days_in_month y m = 29)
  \/ (m = 2 /\ ~ leap_cond y /\ days_in_month y m = 28)
  \/ ((m = 4 \/ m = 6 \/ m = 9 \/ m = 11) /\ days_in_month y m = 30)
  \/ (m <> 2 /\ m <> 4 /\ m <> 6 /\ m <> 9 /\ m <> 11 /\ days_in_month y m = 31).
Proof.
  unfold days_in_month, leap_cond.
  destruct (Z.eqb_spec m 2) as [->|H2].
  - pose proof (is_leap_spec y) as Hl. destruct (is_leap y).
    + left. repeat split; tauto.
    + right; left. repeat split; try tauto.
      intros Hc. apply Hl in Hc. discriminate.
  - destruct (Z.eqb_spec m 4), (Z.eqb_spec m 6), (Z.eqb_spec m 9), (Z.eqb_spec m 11);
      cbn [orb]; try (right; right; left; split; [lia | reflexivity]).
    right; right; right. repeat split; assumption.
Qed.

(** Decoding a Julian Day gives a valid date that encodes back to it. *)
Lemma decode_ok jd :
  valid_date (ZK.year_of jd) (ZK.month_of jd) (ZK.day_of jd)
  /\ ZK.jd_of (ZK.year_of jd) (ZK.month_of jd) (ZK.day_of jd) = jd.
Proof.
  unfold ZK.year_of, ZK.month_of, ZK.day_of, ZK.c_m, ZK.c_e, ZK.jd_c.
  set (b := ZK.jd_b jd).
  set (c := jd + 32044 - 146097 * b / 4).
  set (d := ZK.c_d c).
  set (e := c - 1461 * d / 4).
  set (m := (5 * e + 2) / 153).
  set (k := m / 10).
  set (mon := m + 3 - 12 * k).
  set (day := e - (153 * m + 2) / 5 + 1).
  destruct (century_split (jd + 32044) b c eq_refl eq_refl) as (Hc & Hc4 & Ha).
  destruct (year_split c d e Hc eq_refl eq_refl) as (Hd & He & He4 & He99 & Hce).
  destruct (month_split e m k mon day He eq_refl eq_refl eq_refl eq_refl)
    as (Hm & Hk & Hmon & Hk14 & Hday & Hfeb & H30).
  assert (Hleap : e = 365 -> leap_cond (100 * b + d - 4800 + 1)).
  { intros E. specialize (He4 E). specialize (He99 E).
    assert (d = 99 -> b mod 4 = 3) by auto. unfold leap_cond. div_lia. }
  split.
  - unfold valid_date. split; [exact Hmon|].
    destruct (days_in_month_cases (100 * b + d - 4800 + k) mon)
      as [(E2 & _ & ->)|[(E2 & Hn & ->)|[(E30 & ->)|(_ & _ & _ & _ & _ & ->)]]];
      try lia.
    destruct (Hfeb E2) as (Ek & Hd29 & He365). rewrite Ek in Hn.
    assert (day <> 29) by (intros E; apply Hn, Hleap, He365, E). lia.
  - unfold ZK.jd_of. cbv zeta. rewrite Hk14.
    replace (100 * b + d - 4800 + k + 4800 - k) with (100 * b + d) by ring.
    replace (mon + 12 * k - 3) with m by (subst mon; ring).
    replace (day + (153 * m + 2) / 5) with (e + 1) by (subst day; ring).
    clearbody b c d e. clear -Hd Ha Hce. div_lia.
Qed.

(** Encoding a valid date gives a Julian Day that decodes back to it. *)
Lemma encode_ok y m d :
  valid_date y m d ->
  ZK.year_of (ZK.jd_of y m d) = y /\ ZK.month_of (ZK.jd_of y m d) = m
  /\ ZK.day_of (ZK.jd_of y m d) = d.
Proof.
  intros [Hm Hd].
  set (a' := (14 - m) / 12).
  set (Y := y + 4800 - a').
  set (M := m + 12 * a' - 3).
  set (E := (153 * M + 2) / 5 + d - 1).
  set (B := Y / 100). set (D := Y mod 100).
  set (c := E + 365 * D + D / 4).
  assert (HD : 0 <= D <= 99) by (subst D; div_lia).
  assert (Ha : ZK.jd_of y m d + 32044 = c + 36524 * B + B / 4).
  { unfold ZK.jd_of. cbv zeta. fold a' Y M. subst c E B D.
    clearbody Y M. div_lia. }
  assert (Hdim : 1 <= d <= 31 /\ (m = 2 -> d <= 29 /\ (d = 29 -> leap_cond y))
                 /\ (m = 4 \/ m = 6 \/ m = 9 \/ m = 11 -> d <= 30)).
  { destruct (days_in_month_cases y m)
      as [(E2 & Hl & Hx)|[(E2 & Hn & Hx)|[(E30 & Hx)|(N2 & N4 & N6 & N9 & N11 & Hx)]]];
      rewrite Hx in Hd;
      (split; [lia|]);
      (split; [intros ?; split; [lia | intros ?; first [assumption | lia]] | lia]). }
  destruct Hdim as (Hd31 & Hfeb & H30).
  destruct (month_unique m d a' M E Hm Hd31 ltac:(intros; now apply Hfeb) H30
              eq_refl eq_refl eq_refl) as (Ha' & HM & HM10 & HME & HE & HE365).
  assert (HEl : E = 365 -> D mod 4 = 3 /\ (D = 99 -> B mod 4 = 3)).
  { intros E365. destruct (HE365 E365) as [-> ->].
    destruct (Hfeb eq_refl) as [_ Hl]. specialize (Hl eq_refl).
    unfold leap_cond in Hl. subst D B Y. change ((14 - 2) / 12) with 1 in *.
    subst a'. div_lia. }
  assert (Hc : 0 <= c <= 36524) by (subst c; div_lia).
  assert (Hc4 : c = 36524 -> B mod 4 = 3).
  { intros Ec. assert (E = 365 /\ D = 99) by (subst c; div_lia). now apply HEl. }
  destruct (century_unique _ B c Hc Hc4 Ha) as [Hb Hcc].
  assert (HEl' : E = 365 -> D mod 4 = 3) by (intros; now apply HEl).
  destruct (year_unique c D E HE HEl' eq_refl) as [HDD HEe].
  unfold ZK.year_of, ZK.month_of, ZK.day_of, ZK.c_m, ZK.c_e, ZK.c_d, ZK.jd_c, ZK.jd_b.
  rewrite Hb, Hcc, HDD, HEe, HME, HM10.
  subst E B D M Y. clearbody a'. repeat split; div_lia.
Qed.

(** ** The range of exact arithmetic

    Up to 2^51 - 32045 = 2251799813653203 in magnitude of the Julian Day,
    and up to 2 * 10^13 in magnitude of the year, every integer the two
    conversions compute stays within 2^53: the doubles of the module hold
    them exactly, and the embedding on [Z] computes what the module
    computes.  The year of such a Julian Day lies in the second range, and
    the Julian Day of a date of a year up to 6 * 10^12 lies in the first. *)

Lemma jd_trace_exact (jd : Z) :
  Z.abs jd <= 2251799813653203 -> Forall exact (jd_trace jd).
Proof.
  intros Hjd. unfold jd_trace, ZK.c_m, ZK.c_e, ZK.jd_c.
  set (b := ZK.jd_b jd).
  set (c := jd + 32044 - 146097 * b / 4).
  set (d := ZK.c_d c).
  set (e := c - 1461 * d / 4).
  set (m := (5 * e + 2) / 153).
  destruct (century_split (jd + 32044) b c eq_refl eq_refl) as (Hc & _ & Ha).
  destruct (year_split c d e Hc eq_refl eq_refl) as (Hd & He & _ & _ & _).
  destruct (month_split e m _ _ _ He eq_refl eq_refl eq_refl eq_refl)
    as (Hm & Hk & Hmon & _ & Hday & _).
  assert (Hb : 4 * (jd + 32044) + 3 - 146096 <= 146097 * b <= 4 * (jd + 32044) + 3)
    by (subst b; unfold ZK.jd_b; div_lia).
  assert (Hq : 146097 * b / 4 = jd + 32044 - c) by (subst c; ring).
  assert (Hr : 1461 * d / 4 = c - e) by (subst e; ring).
  assert (Hf : 0 <= (153 * m + 2) / 5 <= 337) by (clear -Hm; div_lia).
  assert (Hk' : 0 <= m / 10 <= 1) by (clear -Hm; div_lia).
  rewrite Hq, Hr. clearbody b c d e m.
  unfold exact. repeat (constructor; [lia|]). constructor.
Qed.

Lemma year_of_range (jd : Z) :
  Z.abs jd <= 2251799813653203 -> Z.abs (ZK.year_of jd) <= 20000000000000.
Proof.
  intros Hjd. unfold ZK.year_of, ZK.c_m, ZK.c_e, ZK.jd_c.
  set (b := ZK.jd_b jd).
  set (c := jd + 32044 - 146097 * b / 4).
  set (d := ZK.c_d c).
  set (e := c - 1461 * d / 4).
  set (m := (5 * e + 2) / 153).
  destruct (century_split (jd + 32044) b c eq_refl eq_refl) as (Hc & _ & _).
  destruct (year_split c d e Hc eq_refl eq_refl) as (Hd & He & _ & _ & _).
  assert (Hb : 4 * (jd + 32044) + 3 - 146096 <= 146097 * b <= 4 * (jd + 32044) + 3)
    by (subst b; unfold ZK.jd_b; div_lia).
  assert (Hk : 0 <= m / 10 <= 1) by (subst m; clear -He; div_lia).
  clearbody b c d e m. lia.
Qed.

Lemma ymd_trace_exact (y m d : Z) :
  Z.abs y <= 20000000000000 -> 1 <= m <= 12 -> 1 <= d <= 31 ->
  Forall exact (ymd_trace y m d).
Proof.
  intros Hy Hm Hd. unfold ymd_trace. cbv zeta.
  set (a := (14 - m) / 12).
  assert (Ha : 0 <= a <= 1) by (subst a; div_lia).
  set (y' := y + 4800 - a).
  set (m' := m + 12 * a - 3).
  assert (Hm' : 0 <= m' <= 11) by (subst m' a; div_lia).
  set (f := (153 * m' + 2) / 5).
  assert (Hf : 0 <= f <= 337) by (subst f; clear -Hm'; div_lia).
  assert (Hy' : Z.abs y' <= 20000000004800) by (subst y'; lia).
  assert (H4 : Z.abs (y' / 4) <= 5000000001200) by (clear -Hy'; div_lia).
  assert (H100 : Z.abs (y' / 100) <= 200000000048) by (clear -Hy'; div_lia).
  assert (H400 : Z.abs (y' / 400) <= 50000000012) by (clear -Hy'; div_lia).
  clearbody f y' m' a.
  unfold exact. repeat (constructor; [lia|]). constructor.
Qed.

Lemma jd_of_range (y m d : Z) :
  Z.abs y <= 6000000000000 -> 1 <= m <= 12 -> 1 <= d <= 31 ->
  Z.abs (ZK.jd_of y m d) <= 2251799813653203.
Proof.
  intros Hy Hm Hd. unfold ZK.jd_of. cbv zeta.
  set (a := (14 - m) / 12).
  assert (Ha : 0 <= a <= 1) by (subst a; div_lia).
  set (y' := y + 4800 - a).
  set (m' := m + 12 * a - 3).
  assert (Hm' : 0 <= m' <= 11) by (subst m' a; div_lia).
  set (f := (153 * m' + 2) / 5).
  assert (Hf : 0 <= f <= 337) by (subst f; clear -Hm'; div_lia).
  assert (Hy' : Z.abs y' <= 6000000004800) by (subst y'; lia).
  assert (H4 : Z.abs (y' / 4) <= 1500000001200) by (clear -Hy'; div_lia).
  assert (H100 : Z.abs (y' / 100) <= 60000000048) by (clear -Hy'; div_lia).
  assert (H400 : Z.abs (y' / 400) <= 15000000012) by (clear -Hy'; div_lia).
  clearbody f y' m' a. lia.
Qed.

(** ** Round trips and validity *)

(** C9, within exact arithmetic.  For every integer Julian Day up to
    2^51 - 32045 in magnitude, [JDtoYMD] returns a triple [[y, m, d]] that
    is a valid Gregorian civil date: [m] lies in 1..12 and [d] in 1..L, with
    L the length of month [m] of year [y] under the Gregorian leap-year
    rules; negative Julian Days included. *)
Theorem JDtoYMD_valid (jd : Z) :
  Z.abs jd <= 2251799813653203 ->
  exists y m d : Z,
    JDtoYMD (Int jd) = [Int y; Int m; Int d]
    /\ 1 <= m <= 12 /\ 1 <= d <= days_in_month y m.
Proof.
  intros _.
  exists (ZK.year_of jd), (ZK.month_of jd), (ZK.day_of jd).
  split; [apply JDtoYMD_Int|]. apply decode_ok.
Qed.

Lemma JDtoYMD_valid_witness :
  Z.abs (-1) <= 2251799813653203
  /\ exists y m d : Z,
       JDtoYMD (Int (-1)) = [Int y; Int m; Int d]
       /\ 1 <= m <= 12 /\ 1 <= d <= days_in_month y m.
Proof.
  split; [lia|]. apply (JDtoYMD_valid (-1)). lia.
Defined.

(** C9 as stated, for every integer Julian Day, fails on the doubles of the
    module: for the Julian Day 2251799813680868 the product [4 * a] passes
    2^53, and [JDtoYMD] returns February 29 of the year 6165218483500,
    which is not a leap year. *)
Lemma JDtoYMD_valid_fails_beyond_2p53 :
  map F64.to_Z (F64.JDtoYMD (F64.of_Z 2251799813680868))
  = [Some 6165218483500; Some 2; Some 29]
  /\ days_in_month 6165218483500 2 = 28
  /\ ~ (1 <= 29 <= days_in_month 6165218483500 2).
Proof.
  split; [vm_compute; reflexivity|].
  assert (E : days_in_month 6165218483500 2 = 28) by (vm_compute; reflexivity).
  split; [exact E|]. rewrite E. lia.
Qed.

(** C1, within exact arithmetic.  For every integer [jd] up to 2^51 - 32045
    in magnitude, passing the year, month and day returned by [JDtoYMD(jd)]
    to [YMDtoJD] gives [jd] back. *)
Theorem YMDtoJD_JDtoYMD (jd : Z) :
  Z.abs jd <= 2251799813653203 ->
  YMDtoJD (JS.idx (JDtoYMD (Int jd)) 0) (JS.idx (JDtoYMD (Int jd)) 1)
          (JS.idx (JDtoYMD (Int jd)) 2) = Int jd.
Proof.
  intros _.
  rewrite JDtoYMD_Int. cbn [JS.idx nth].
  destruct (decode_ok jd) as [[Hm Hd] He].
  rewrite YMDtoJD_Int by lia. now f_equal.
Qed.

Lemma YMDtoJD_JDtoYMD_witness :
  Z.abs (-1000) <= 2251799813653203
  /\ YMDtoJD (JS.idx (JDtoYMD (Int (-1000))) 0) (JS.idx (JDtoYMD (Int (-1000))) 1)
             (JS.idx (JDtoYMD (Int (-1000))) 2) = Int (-1000).
Proof.
  split; [lia|]. apply (YMDtoJD_JDtoYMD (-1000)). lia.
Defined.

(** C1 as stated, for every integer [jd], fails on the doubles of the
    module: for [jd] = 2^51 = 2251799813685248 the round trip returns
    [jd - 1]. *)
Lemma YMDtoJD_JDtoYMD_fails_beyond_2p53 :
  let jd := 2251799813685248 in
  let ymd := F64.JDtoYMD (F64.of_Z jd) in
  map F64.to_Z ymd = [Some 6165218483512; Some 2; Some 26]
  /\ F64.to_Z (F64.YMDtoJD (F64.idx ymd 0) (F64.idx ymd 1) (F64.idx ymd 2))
     = Some (jd - 1)
  /\ F64.YMDtoJD (F64.idx ymd 0) (F64.idx ymd 1) (F64.idx ymd 2) <> F64.of_Z jd.
Proof.
  cbv zeta. split; [vm_compute; reflexivity|].
  split; [vm_compute; reflexivity|].
  intros H. apply (f_equal F64.to_Z) in H. vm_compute in H. discriminate H.
Qed.

(** C2, within exact arithmetic.  For every valid proleptic-Gregorian civil
    date [(y, m, d)] of a year up to 6 * 10^12 in magnitude,
    [JDtoYMD(YMDtoJD(y, m, d))] is the triple [[y, m, d]]. *)
Theorem JDtoYMD_YMDtoJD (y m d : Z) :
  Z.abs y <= 6000000000000 ->
  valid_date y m d ->
  JDtoYMD (YMDtoJD (Int y) (Int m) (Int d)) = [Int y; Int m; Int d].
Proof.
  intros _ Hv. destruct (encode_ok y m d Hv) as (Hy & Hm & Hd).
  destruct Hv as [Hm1 Hd1].
  rewrite YMDtoJD_Int by lia. rewrite JDtoYMD_Int. now rewrite Hy, Hm, Hd.
Qed.

Lemma JDtoYMD_YMDtoJD_witness :
  Z.abs 2000 <= 6000000000000
  /\ valid_date 2000 2 29
  /\ JDtoYMD (YMDtoJD (Int 2000) (Int 2) (Int 29)) = [Int 2000; Int 2; Int 29].
Proof.
  assert (H : valid_date 2000 2 29).
  { unfold valid_date. change (days_in_month 2000 2) with 29. lia. }
  split; [lia|]. split; [exact H|].
  apply (JDtoYMD_YMDtoJD 2000 2 29); [lia | exact H].
Defined.

(** C2 as stated, for every valid date, fails on the doubles of the module:
    March 1 of the year 6165218483500 is a valid date, and
    [JDtoYMD(YMDtoJD(6165218483500, 3, 1))] is February 29 of that year. *)
Lemma JDtoYMD_YMDtoJD_fails_beyond_2p53 :
  let y := 6165218483500 in
  valid_date y 3 1
  /\ F64.to_Z (F64.YMDtoJD (F64.of_Z y) (F64.of_Z 3) (F64.of_Z 1))
     = Some 2251799813680868
  /\ map F64.to_Z
       (F64.JDtoYMD (F64.YMDtoJD (F64.of_Z y) (F64.of_Z 3) (F64.of_Z 1)))
     = [Some y; Some 2; Some 29]
  /\ [Some y; Some 2; Some 29] <> map F64.to_Z [F64.of_Z y; F64.of_Z 3; F64.of_Z 1].
Proof.
  cbv zeta. split.
  { unfold valid_date. change (days_in_month 6165218483500 3) with 31. lia. }
  split; [vm_compute; reflexivity|].
  split; [vm_compute; reflexivity|].
  intros H. vm_compute in H. discriminate H.
Qed.

(** ** Defaults of [YMDtoJD] *)

Lemma YMDtoJD_Int_default (y m d : Z) :
  YMDtoJD (Int y) (Int m) (Int d)
  = Int (ZK.jd_of y (if m =? 0 then 1 else m) (if d =? 0 then 1 else d)).
Proof.
  unfold YMDtoJD, ZK.jd_of, JS.or, JS.truthy, JS.ToNumber.
  destruct (m =? 0), (d =? 0); cbn [negb];
    unfold JS.add, JS.sub, JS.mul, JS.lift2;
    repeat (rewrite floor_div by lia); reflexivity.
Qed.

Lemma YMDtoJD_Int_omitted (y : Z) :
  YMDtoJD (Int y) Undefined Undefined = Int (ZK.jd_of y 1 1).
Proof.
  unfold YMDtoJD, ZK.jd_of, JS.or, JS.truthy, JS.ToNumber. cbn [negb].
  unfold JS.add, JS.sub, JS.mul, JS.lift2.
  repeat (rewrite floor_div by lia). reflexivity.
Qed.

(** C8.  For every integer year [y] and month [m] (in particular
    1 <= m <= 12), [YMDtoJD(y, m, 0)] is the same Julian Day as
    [YMDtoJD(y, m, 1)]; and with month and day omitted, [YMDtoJD(y)] is the
    same Julian Day as [YMDtoJD(y, 1, 1)].  Both sides are integers, so [===]
    holds. *)
Theorem YMDtoJD_defaults (y m : Z) :
  (exists jd : Z,
      YMDtoJD (Int y) (Int m) (Int 0) = Int jd
      /\ YMDtoJD (Int y) (Int m) (Int 1) = Int jd)
  /\ (exists jd : Z,
         YMDtoJD (Int y) Undefined Undefined = Int jd
         /\ YMDtoJD (Int y) (Int 1) (Int 1) = Int jd).
Proof.
  split.
  - exists (ZK.jd_of y (if m =? 0 then 1 else m) 1).
    split; apply YMDtoJD_Int_default.
  - exists (ZK.jd_of y 1 1). split.
    + apply YMDtoJD_Int_omitted.
    + apply YMDtoJD_Int_default.
Qed.

(** ** Known values *)

(** C4.  [YDMtoISO_YW(2016, 1, 1)] is the string ["2015-W53"]: January 1,
    2016 is a Friday (day 5 in both numberings) and belongs to week 53 of
    the ISO week-numbering year 2015. *)
Theorem YDMtoISO_YW_2016_01_01 :
  YDMtoISO_YW (Int 2016) (Int 1) (Int 1) = "2015-W53"%string
  /\ YMDtoYWd_ (Int 2016) (Int 1) (Int 1) = [Int 2015; Int 53; Int 5]
  /\ YMDtoDayOfWeek (Int 2016) (Int 1) (Int 1) = Int 5.
Proof. repeat split; vm_compute; reflexivity. Qed.

(** The fixed points and ISO week cases listed by the specification. *)
Example known_values :
  YMDtoJD (Int 2000) (Int 1) (Int 1) = Int 2451545
  /\ JDtoYMD (Int 2451545) = [Int 2000; Int 1; Int 1]
  /\ YMDtoDayOfWeek (Int 2000) (Int 1) (Int 1) = Int 6
  /\ YDMtoISO_YW (Int 2015) (Int 1) (Int 26) = "2015-W05"%string
  /\ YDMtoISO_YWD (Int 2015) (Int 1) (Int 27) = "2015-W05-2"%string
  /\ ISOtoJD "2015-W05-2" = Some (YMDtoJD (Int 2015) (Int 1) (Int 27))
  /\ minutesToISO_HM (HMtoMinutes (Int 9) (Int 5)) = "09:05"%string.
Proof. repeat split; vm_compute; reflexivity. Qed.

(** C6, at a date before the epoch of the Julian Day count.  November 22 of
    the astronomical year -4713 is a valid civil date, two days before Julian
    Day 0; [YMDtoDayOfWeek] returns -1 there, outside 0..6, where
    [YMDtoJD] (with [Math.floor] in place of [>> 0]) returns -2. *)
Theorem YMDtoDayOfWeek_before_epoch :
  valid_date (-4713) 11 22
  /\ YMDtoDayOfWeek (Int (-4713)) (Int 11) (Int 22) = Int (-1)
  /\ YMDtoJD (Int (-4713)) (Int 11) (Int 22) = Int (-2).
Proof.
  split.
  - unfold valid_date. change (days_in_month (-4713) 11) with 30. lia.
  - split; vm_compute; reflexivity.
Qed.

(** ** Parsing and splitting numerals *)

Lemma uint_of_char_None c d d' :
  uint_of_char c (Some d) = None -> uint_of_char c (Some d') = None.
Proof.
  destruct c as [[|] [|] [|] [|] [|] [|] [|] [|]]; cbn; congruence.
Qed.

Lemma uint_of_string_absent s : forall u c,
  NilEmpty.uint_of_string s = Some u -> nondigit c -> absent c s = true.
Proof.
  induction s as [|a s IH]; intros u c Hs Hc; [reflexivity|].
  cbn [NilEmpty.uint_of_string absent] in Hs |- *.
  destruct (NilEmpty.uint_of_string s) as [u'|] eqn:Hu; [|discriminate].
  rewrite (IH u' c eq_refl Hc), andb_true_r.
  destruct (Ascii.eqb_spec a c) as [->|_]; [|reflexivity].
  rewrite (uint_of_char_None c _ u' Hc) in Hs. discriminate.
Qed.

Lemma numeral_inv s n :
  numeral s n ->
  s <> EmptyString
  /\ exists u, NilEmpty.uint_of_string s = Some u /\ Z.of_uint u = n.
Proof.
  unfold numeral, numeralb. destruct s as [|a s]; [discriminate|].
  destruct (NilEmpty.uint_of_string (String a s)) as [u|]; [|discriminate].
  intros H. split; [discriminate|]. exists u. split; [reflexivity|].
  now apply Z.eqb_eq.
Qed.

Lemma numeral_absent s n c : numeral s n -> nondigit c -> absent c s = true.
Proof.
  intros H Hc. destruct (numeral_inv s n H) as (_ & u & Hu & _).
  exact (uint_of_string_absent s u c Hu Hc).
Qed.

Lemma split_absent sep s : absent sep s = true -> Str.split sep s = [s].
Proof.
  induction s as [|a s IH]; [reflexivity|]. cbn [Str.split absent].
  intros H. apply andb_true_iff in H as [Ha Hs].
  apply negb_true_iff in Ha. rewrite Ha, (IH Hs). reflexivity.
Qed.

Lemma split_app sep s t :
  absent sep s = true ->
  Str.split sep (s ++ String sep t) = s :: Str.split sep t.
Proof.
  induction s as [|a s IH].
  - intros _. change (Str.split sep (String sep t) = [EmptyString] ++ Str.split sep t).
    cbn [Str.split]. now rewrite Ascii.eqb_refl.
  - change (String a s ++ String sep t)%string with (String a (s ++ String sep t)).
    cbn [Str.split absent]. intros H. apply andb_true_iff in H as [Ha Hs].
    apply negb_true_iff in Ha. rewrite Ha, (IH Hs). reflexivity.
Qed.

Lemma indexOf_lower c s : -1 <= Str.indexOf c s.
Proof.
  induction s as [|a s IH]; cbn [Str.indexOf]; [lia|].
  destruct (Ascii.eqb a c); [lia|].
  destruct (Z.ltb_spec (Str.indexOf c s) 0); lia.
Qed.

Lemma indexOf_app c s t : 0 <= Str.indexOf c (s ++ String c t).
Proof.
  induction s as [|a s IH].
  - change (0 <= Str.indexOf c (String c t)). cbn [Str.indexOf].
    now rewrite Ascii.eqb_refl.
  - change (String a s ++ String c t)%string with (String a (s ++ String c t)).
    cbn [Str.indexOf]. destruct (Ascii.eqb a c); [lia|].
    destruct (Z.ltb_spec (Str.indexOf c (s ++ String c t)) 0); lia.
Qed.

Lemma indexOf_absent c s : absent c s = true -> Str.indexOf c s = -1.
Proof.
  induction s as [|a s IH]; cbn [Str.indexOf absent]; [reflexivity|].
  intros H. apply andb_true_iff in H as [Ha Hs].
  apply negb_true_iff in Ha. rewrite Ha, (IH Hs). reflexivity.
Qed.

(** [Number] reads a numeral as its value. *)
Lemma Number_numeral s n : numeral s n -> Str.Number s = Int n.
Proof.
  intros H. destruct (numeral_inv s n H) as (Hne & u & Hu & Hn).
  destruct s as [|a s]; [contradiction|].
  assert (Hp : absent "+" (String a s) = true)
    by (apply (uint_of_string_absent _ u); [assumption | reflexivity]).
  assert (Hm : absent "-" (String a s) = true)
    by (apply (uint_of_string_absent _ u); [assumption | reflexivity]).
  cbn [absent] in Hp, Hm. apply andb_true_iff in Hp as [Hp _], Hm as [Hm _].
  apply negb_true_iff in Hp, Hm.
  unfold Str.Number, NilZero.int_of_string, NilZero.uint_of_string.
  rewrite Hp, Hm, Hu. cbn. now rewrite Hn.
Qed.

Lemma numeral_ToString n : 0 <= n -> numeral (Str.ToString (Int n)) n.
Proof.
  intros Hn. unfold numeral, numeralb, Str.ToString.
  destruct n as [|p|p]; [reflexivity| |lia].
  cbn [Z.to_int NilZero.string_of_int].
  pose proof (DecimalPos.Unsigned.to_uint_nonnil p) as Hnil.
  pose proof (DecimalPos.Unsigned.of_to p) as Hof.
  assert (Hs : NilZero.string_of_uint (Pos.to_uint p)
               = NilEmpty.string_of_uint (Pos.to_uint p))
    by (destruct (Pos.to_uint p); [contradiction|reflexivity..]).
  rewrite Hs, NilEmpty.usu.
  unfold Z.of_uint. rewrite Hof. cbn [Z.of_N]. rewrite Z.eqb_refl.
  destruct (Pos.to_uint p); [contradiction|reflexivity..].
Qed.

Lemma numeral_zero s n : numeral s n -> numeral (String "0" s) n.
Proof.
  intros H. destruct (numeral_inv s n H) as (_ & u & Hu & Hn).
  unfold numeral, numeralb. cbn [NilEmpty.uint_of_string]. rewrite Hu.
  cbn. now apply Z.eqb_eq.
Qed.

Lemma append_empty_r (s : string) : (s ++ "")%string = s.
Proof.
  induction s as [|a s IH]; [reflexivity|].
  change (String a (s ++ "") = String a s). now rewrite IH.
Qed.

Lemma numeral_pad_ n : 0 <= n -> numeral (pad_ (Int n)) n.
Proof.
  intros Hn. unfold pad_. destruct (JS.lt (Int n) (Int 10)).
  - apply numeral_zero, numeral_ToString, Hn.
  - rewrite append_empty_r. apply numeral_ToString, Hn.
Qed.

Lemma or_Int_zero (m : Z) : JS.or (Int m) (Int 0) = Int m.
Proof.
  unfold JS.or, JS.truthy. destruct (Z.eqb_spec m 0) as [->|_]; reflexivity.
Qed.

Lemma split3 sep a b c :
  absent sep a = true -> absent sep b = true -> absent sep c = true ->
  Str.split sep (a ++ String sep (b ++ String sep c)) = [a; b; c].
Proof.
  intros Ha Hb Hc. rewrite (split_app _ _ _ Ha), (split_app _ _ _ Hb).
  now rewrite (split_absent _ _ Hc).
Qed.

(** ** Time of day *)

(** C7.  [ISO_HMStoPercents("00:00:00")] is 0 and
    [ISO_HMStoPercents("23:59:59")] is exactly 100; on every text
    ["HH:MM:SS"] the result is the seconds since midnight times 100 divided
    by the constant 86399. *)
Theorem ISO_HMStoPercents_spec (hs ms ss : string) (h m s : Z) :
  numeral hs h -> numeral ms m -> numeral ss s ->
  ISO_HMStoPercents "00:00:00" = Real 0
  /\ ISO_HMStoPercents "23:59:59" = Real 100
  /\ ISO_HMStoPercents (hs ++ ":" ++ ms ++ ":" ++ ss)
     = (Int (h * 3600 + m * 60 + s) * 100 / 86399)%js.
Proof.
  intros Hh Hm Hs.
  split; [vm_compute; reflexivity|]. split; [vm_compute; reflexivity|].
  change (hs ++ ":" ++ ms ++ ":" ++ ss)%string
    with (hs ++ String ":" (ms ++ String ":" ss))%string.
  unfold ISO_HMStoPercents.
  rewrite split3 by (eapply numeral_absent; [eassumption | reflexivity]).
  cbn [map]. rewrite (Number_numeral _ _ Hh), (Number_numeral _ _ Hm),
    (Number_numeral _ _ Hs).
  unfold JS.apply3, JS.idx, HMStoSeconds. cbn [nth].
  rewrite !or_Int_zero. reflexivity.
Qed.

Lemma ISO_HMStoPercents_spec_witness :
  ISO_HMStoPercents "00:00:00" = Real 0
  /\ ISO_HMStoPercents "23:59:59" = Real 100
  /\ ISO_HMStoPercents ("12" ++ ":" ++ "30" ++ ":" ++ "15")
     = (Int (12 * 3600 + 30 * 60 + 15) * 100 / 86399)%js.
Proof.
  apply (ISO_HMStoPercents_spec "12" "30" "15" 12 30 15); reflexivity.
Defined.

(** ** Absolute months *)

Lemma shr0_div_nonneg a b :
  0 <= a < 2147483648 -> 0 < b ->
  JS.shr0 (JS.div (Int a) (Int b)) = Int (a / b).
Proof.
  intros Ha Hb. rewrite shr0_div by assumption.
  rewrite Z.quot_div_nonneg by lia.
  rewrite ToInt32_small; [reflexivity|].
  split.
  - apply Z.le_trans with 0; [lia|]. apply Z.div_pos; lia.
  - apply Z.div_lt_upper_bound; nia.
Qed.

Lemma ADMonth_year n :
  0 <= n < 25769803776 -> JS.shr0 (JS.div (Int n) (Int 12)) = Int (n / 12).
Proof.
  intros Hn. rewrite shr0_div by lia.
  rewrite Z.quot_div_nonneg by lia.
  rewrite ToInt32_small; [reflexivity | div_lia].
Qed.

Lemma ADMonth_month n :
  0 <= n -> (JS.rem (Int n) (Int 12) + Int 1)%js = Int (n mod 12 + 1).
Proof.
  intros Hn. cbn. now rewrite Z.rem_mod_nonneg by lia.
Qed.

(** C3, as the code has it.  For every absolute month [n] with
    [0 <= n < 12 * 2^31], [ISOtoADMonth(ADMonthToISO_YM(n))] is [n], and
    [ADMonthToJD(n)] is [YMDtoJD(floor(n/12), (n mod 12) + 1, 1)]. *)
Theorem ADMonth_roundtrip_nonneg (n : Z) :
  0 <= n < 25769803776 ->
  ISOtoADMonth (ADMonthToISO_YM (Int n)) = Int n
  /\ ADMonthToJD (Int n) = YMDtoJD (Int (n / 12)) (Int (n mod 12 + 1)) (Int 1).
Proof.
  intros Hn. split.
  - unfold ADMonthToISO_YM, ISOtoADMonth.
    rewrite ADMonth_year, ADMonth_month by lia.
    assert (Hy : numeral (Str.ToString (Int (n / 12))) (n / 12))
      by (apply numeral_ToString; div_lia).
    assert (Hm : numeral (pad_ (Int (n mod 12 + 1))) (n mod 12 + 1))
      by (apply numeral_pad_; div_lia).
    change (?a ++ "-" ++ ?b)%string with (a ++ String "-" b)%string.
    rewrite split_app by (eapply numeral_absent; [eassumption | reflexivity]).
    rewrite split_absent by (eapply numeral_absent; [eassumption | reflexivity]).
    cbn [map JS.idx nth].
    rewrite (Number_numeral _ _ Hy), (Number_numeral _ _ Hm).
    unfold JS.or, JS.truthy.
    destruct (Z.eqb_spec (n mod 12 + 1) 0) as [E|_]; [div_lia|].
    cbn. f_equal. div_lia.
  - unfold ADMonthToJD. now rewrite ADMonth_year, ADMonth_month by lia.
Qed.

Lemma ADMonth_roundtrip_nonneg_witness :
  0 <= 24191 < 25769803776
  /\ ISOtoADMonth (ADMonthToISO_YM (Int 24191)) = Int 24191
  /\ ADMonthToJD (Int 24191)
     = YMDtoJD (Int (24191 / 12)) (Int (24191 mod 12 + 1)) (Int 1).
Proof.
  split; [lia|]. apply (ADMonth_roundtrip_nonneg 24191). lia.
Defined.

(** C3 fails below zero: the absolute month -1 is printed as ["0-00"], which
    reads back as 0; and [ADMonthToJD(-1)] is January 1 of year 0, not
    December 1 of year -1. *)
Lemma ADMonth_roundtrip_negative :
  ~ (ISOtoADMonth (ADMonthToISO_YM (Int (-1))) = Int (-1)
     /\ ADMonthToJD (Int (-1))
        = YMDtoJD (Int (-1 / 12)) (Int ((-1) mod 12 + 1)) (Int 1)).
Proof. intros [H _]. vm_compute in H. discriminate H. Qed.

(** ** Day of week *)

(** On dates whose shifted year is non-negative and fits 32 bits, and whose
    Julian Day is non-negative, [YMDtoDayOfWeek] is the Julian Day plus one,
    modulo 7. *)
Lemma YMDtoDayOfWeek_Int (y m d : Z) :
  1 <= m <= 12 ->
  0 <= y + 4800 - (14 - m) / 12 < 2147483648 ->
  0 <= ZK.jd_of y m d ->
  YMDtoDayOfWeek (Int y) (Int m) (Int d) = Int ((ZK.jd_of y m d + 1) mod 7).
Proof.
  intros Hm Hy Hjd. unfold YMDtoDayOfWeek. cbv zeta.
  cbn [JS.add JS.sub JS.mul JS.lift2].
  rewrite (shr0_div_nonneg (14 - m) 12) by lia.
  cbn [JS.add JS.sub JS.mul JS.lift2].
  rewrite (shr0_div_nonneg (153 * (m + 12 * ((14 - m) / 12) - 3) + 2) 5) by div_lia.
  rewrite !(shr0_div_nonneg (y + 4800 - (14 - m) / 12)) by lia.
  cbn [JS.add JS.sub JS.mul JS.lift2].
  unfold ZK.jd_of in Hjd |- *. cbv zeta in Hjd |- *.
  set (S := d + _ + _ + _ - _ + _ - 32045) in *.
  unfold JS.rem. cbn [Z.eqb JS.add JS.lift2].
  rewrite Z.rem_mod_nonneg by lia.
  unfold JS.seq. destruct (Z.eqb_spec (S mod 7 + 1) 7); f_equal; div_lia.
Qed.

Lemma shifted_year_bounds jd :
  0 <= jd < 2147483648 ->
  0 <= ZK.year_of jd + 4800 - (14 - ZK.month_of jd) / 12 < 2147483648.
Proof.
  intros Hjd.
  unfold ZK.year_of, ZK.month_of, ZK.c_m, ZK.c_e, ZK.jd_c.
  set (b := ZK.jd_b jd).
  set (c := jd + 32044 - 146097 * b / 4).
  set (d := ZK.c_d c).
  set (e := c - 1461 * d / 4).
  set (m := (5 * e + 2) / 153).
  set (k := m / 10).
  set (mon := m + 3 - 12 * k).
  destruct (century_split (jd + 32044) b c eq_refl eq_refl) as (Hc & Hc4 & Ha).
  destruct (year_split c d e Hc eq_refl eq_refl) as (Hd & He & He4 & He99 & Hce).
  destruct (month_split e m k mon _ He eq_refl eq_refl eq_refl eq_refl)
    as (Hm & Hk & Hmon & Hk14 & _).
  rewrite Hk14.
  assert (Hb : 0 <= b <= 58798) by (unfold b, ZK.jd_b; div_lia).
  lia.
Qed.

(** From the year -4712 on (every such date has a non-negative Julian Day),
    and while the shifted year fits 32 bits, the day of week is in 0..6. *)
Lemma YMDtoDayOfWeek_range (y m d : Z) :
  valid_date y m d -> -4712 <= y < 2147478848 ->
  exists r : Z, YMDtoDayOfWeek (Int y) (Int m) (Int d) = Int r /\ 0 <= r <= 6.
Proof.
  intros [Hm Hd] Hy. exists ((ZK.jd_of y m d + 1) mod 7). split.
  - apply YMDtoDayOfWeek_Int; [exact Hm | div_lia |].
    unfold ZK.jd_of. cbv zeta. div_lia.
  - div_lia.
Qed.

(** [JDtoDayOfWeek] on the non-negative Julian Days that fit 32 bits. *)
Lemma JDtoDayOfWeek_Int (jd : Z) :
  0 <= jd < 2147483648 -> JDtoDayOfWeek (Int jd) = Int ((jd + 1) mod 7).
Proof.
  intros Hjd. unfold JDtoDayOfWeek. rewrite JDtoYMD_Int.
  unfold JS.apply3. cbn [JS.idx nth].
  destruct (decode_ok jd) as [[Hm Hd] He].
  rewrite YMDtoDayOfWeek_Int.
  - now rewrite He.
  - exact Hm.
  - apply shifted_year_bounds, Hjd.
  - rewrite He. lia.
Qed.

(** ** ISO weeks *)

Lemma jd_of_jan1_nonneg y : 0 <= y -> 0 <= ZK.jd_of y 1 1.
Proof. intros Hy. unfold ZK.jd_of. cbv zeta. div_lia. Qed.

Lemma iso_dow_jan1_range y :
  1 <= iso_dow_jan1 y <= 7
  /\ (ZK.jd_of y 1 1 - (iso_dow_jan1 y - 1)) mod 7 = 0.
Proof.
  unfold iso_dow_jan1. cbv zeta.
  set (j := ZK.jd_of y 1 1). clearbody j.
  destruct (Z.eqb_spec ((j + 1) mod 7) 0); div_lia.
Qed.

(** Week 1 starts on a Monday (a Julian Day divisible by 7), in the week
    that contains January 4. *)
Lemma week1_monday y :
  week1 y mod 7 = 0 /\ ZK.jd_of y 1 4 - 6 <= week1 y <= ZK.jd_of y 1 4.
Proof.
  unfold week1. cbv zeta.
  destruct (iso_dow_jan1_range y) as [Hk Hmod].
  set (k := iso_dow_jan1 y) in *. clearbody k.
  assert (Hdec : forall d, ZK.jd_of (y - 1) 12 d = ZK.jd_of y 1 1 + d - 32)
    by (intros d; unfold ZK.jd_of; cbv zeta; div_lia).
  assert (Hjan : forall d, ZK.jd_of y 1 d = ZK.jd_of y 1 1 + d - 1)
    by (intros d; unfold ZK.jd_of; cbv zeta; lia).
  rewrite Hdec, (Hjan 4), (Hjan (if k =? 1 then 1 else 9 - k)).
  set (j := ZK.jd_of y 1 1) in *. clearbody j.
  destruct (Z.ltb_spec 1 k), (Z.ltb_spec k 5), (Z.eqb_spec k 1);
    cbn [andb]; div_lia.
Qed.

Lemma YWDoWtoJD_Int (y w : Z) (dow : value) (dv : Z) :
  0 <= y < 2147478848 ->
  JS.or dow (Int 1) = Int dv ->
  YWDoWtoJD (Int y) (Int w) dow = Int (week1 y + 7 * (w - 1) + dv - 1).
Proof.
  intros Hy Hdow. unfold YWDoWtoJD. cbv zeta.
  rewrite YMDtoDayOfWeek_Int;
    [| lia | change ((14 - 1) / 12) with 1; lia | apply jd_of_jan1_nonneg; lia].
  destruct (iso_dow_jan1_range y) as [Hk _].
  assert (Hor : JS.or (Int ((ZK.jd_of y 1 1 + 1) mod 7)) (Int 7)
                = Int (iso_dow_jan1 y)).
  { unfold JS.or, JS.truthy, iso_dow_jan1. cbv zeta.
    destruct (Z.eqb_spec ((ZK.jd_of y 1 1 + 1) mod 7) 0) as [->|_]; reflexivity. }
  rewrite Hor, Hdow. unfold week1. cbv zeta.
  set (k := iso_dow_jan1 y) in *. clearbody k.
  unfold JS.gt, JS.lt, JS.seq.
  cbn [JS.add JS.sub JS.mul JS.lift2].
  destruct ((1 <? k) && (k <? 5)).
  - rewrite YMDtoJD_Int by lia. cbn [JS.add JS.sub JS.mul JS.lift2]. reflexivity.
  - destruct (Z.eqb_spec k 1).
    + rewrite YMDtoJD_Int by lia. cbn [JS.add JS.sub JS.mul JS.lift2]. reflexivity.
    + rewrite YMDtoJD_Int by lia. cbn [JS.add JS.sub JS.mul JS.lift2]. reflexivity.
Qed.

Lemma indexOf_app_r c s t :
  0 <= Str.indexOf c t -> 0 <= Str.indexOf c (s ++ t).
Proof.
  intros Ht. induction s as [|a s IH]; [exact Ht|].
  change (String a s ++ t)%string with (String a (s ++ t)).
  cbn [Str.indexOf]. destruct (Ascii.eqb a c); [lia|].
  destruct (Z.ltb_spec (Str.indexOf c (s ++ t)) 0); lia.
Qed.

(** C10.  For every ISO week text ["YYYY-Www"] without a day, [ISOtoJD]
    returns the value of [ISOtoJD("YYYY-Www-1")] and of
    [YWDoWtoJD(YYYY, ww, 1)]: the missing third token reads as [NaN], which
    [YWDoWtoJD] replaces by 1.  That Julian Day is a Monday, [ww - 1] weeks
    after the Monday of the week that contains January 4. *)
Theorem ISOtoJD_week_without_day (ys ws : string) (y w : Z) :
  numeral ys y -> numeral ws w -> y <= 9999 -> 1 <= w <= 53 ->
  ISOtoJD (ys ++ "-W" ++ ws) = Some (YWDoWtoJD (Int y) (Int w) (Int 1))
  /\ ISOtoJD (ys ++ "-W" ++ ws ++ "-1") = Some (YWDoWtoJD (Int y) (Int w) (Int 1))
  /\ Str.ToNumber (nth_error (Str.split "-" (ys ++ "-W" ++ ws)) 2) = NaN
  /\ YWDoWtoJD (Int y) (Int w) NaN = YWDoWtoJD (Int y) (Int w) (Int 1)
  /\ exists jd j4 : Z,
       YWDoWtoJD (Int y) (Int w) (Int 1) = Int jd
       /\ YMDtoJD (Int y) (Int 1) (Int 4) = Int j4
       /\ JDtoDayOfWeek (Int jd) = Int 1
       /\ j4 - 6 <= jd - 7 * (w - 1) <= j4.
Proof.
  intros Hys Hws Hy Hw.
  assert (Hy0 : 0 <= y).
  { destruct (numeral_inv _ _ Hys) as (_ & u & _ & <-).
    unfold Z.of_uint. apply N2Z.is_nonneg. }
  assert (Hay : absent "-" ys = true)
    by (eapply numeral_absent; [eassumption | reflexivity]).
  assert (Haw : absent "-" (String "W" ws) = true).
  { cbn [absent]. rewrite (numeral_absent _ _ "-"%char Hws) by reflexivity.
    reflexivity. }
  assert (HW : forall t, JS.truthy (Int (bitnot (Str.indexOf "W"
                 (ys ++ String "-" (String "W" t))))) = true).
  { intros t. pose proof (indexOf_app_r "W" ys (String "-" (String "W" t))) as H.
    cbn [Str.indexOf] in H. change (Ascii.eqb "-" "W") with false in H.
    rewrite Ascii.eqb_refl in H. specialize (H ltac:(cbn; lia)).
    unfold JS.truthy, bitnot.
    destruct (Z.eqb_spec (- Str.indexOf "W" (ys ++ String "-" (String "W" t)) - 1) 0);
      [lia | reflexivity]. }
  assert (Hnan : YWDoWtoJD (Int y) (Int w) NaN = YWDoWtoJD (Int y) (Int w) (Int 1)).
  { rewrite !(YWDoWtoJD_Int y w _ 1) by (try lia; reflexivity). reflexivity. }
  assert (Hsplit : Str.split "-" (ys ++ String "-" (String "W" ws))
                   = [ys; String "W" ws]).
  { rewrite (split_app _ _ _ Hay). now rewrite (split_absent _ _ Haw). }
  change (ys ++ "-W" ++ ws)%string with (ys ++ String "-" (String "W" ws))%string.
  change (ys ++ "-W" ++ ws ++ "-1")%string
    with (ys ++ String "-" (String "W" (ws ++ "-1")))%string.
  split; [|split; [|split; [|split]]].
  - unfold ISOtoJD. rewrite HW, Hsplit. cbn [nth_error Str.substr1 Str.ToNumber].
    rewrite (Number_numeral _ _ Hys), (Number_numeral _ _ Hws). now rewrite Hnan.
  - unfold ISOtoJD. rewrite HW.
    rewrite (split_app _ _ _ Hay).
    change (String "W" (ws ++ "-1"))%string
      with (String "W" ws ++ String "-" "1")%string.
    rewrite (split_app _ _ _ Haw).
    cbn [Str.split nth_error Str.substr1 Str.ToNumber].
    rewrite (Number_numeral _ _ Hys), (Number_numeral _ _ Hws). reflexivity.
  - rewrite Hsplit. reflexivity.
  - exact Hnan.
  - destruct (week1_monday y) as [Hmon H4].
    exists (week1 y + 7 * (w - 1) + 1 - 1), (ZK.jd_of y 1 4).
    split; [|split; [|split]].
    + apply YWDoWtoJD_Int; [lia | reflexivity].
    + apply YMDtoJD_Int; lia.
    + assert (Hj4 : 1721060 <= ZK.jd_of y 1 4 <= 5373500)
        by (unfold ZK.jd_of; cbv zeta; div_lia).
      rewrite JDtoDayOfWeek_Int by lia. f_equal. div_lia.
    + lia.
Qed.

Lemma ISOtoJD_week_without_day_witness :
  ISOtoJD ("2015" ++ "-W" ++ "05") = Some (YWDoWtoJD (Int 2015) (Int 5) (Int 1))
  /\ ISOtoJD ("2015" ++ "-W" ++ "05" ++ "-1")
     = Some (YWDoWtoJD (Int 2015) (Int 5) (Int 1))
  /\ Str.ToNumber (nth_error (Str.split "-" ("2015" ++ "-W" ++ "05")) 2) = NaN
  /\ YWDoWtoJD (Int 2015) (Int 5) NaN = YWDoWtoJD (Int 2015) (Int 5) (Int 1)
  /\ exists jd j4 : Z,
       YWDoWtoJD (Int 2015) (Int 5) (Int 1) = Int jd
       /\ YMDtoJD (Int 2015) (Int 1) (Int 4) = Int j4
       /\ JDtoDayOfWeek (Int jd) = Int 1
       /\ j4 - 6 <= jd - 7 * (5 - 1) <= j4.
Proof.
  apply (ISOtoJD_week_without_day "2015" "05" 2015 5);
    [reflexivity | reflexivity | lia | lia].
Defined.

(** ** The contract of [JDtoDate] *)

Lemma setFullYear_reads (o : DateObj) (jd : Z) :
  reads_ymd (setFullYear o (JS.idx (JDtoYMD (Int jd)) 0)
                           (JS.idx (JDtoYMD (Int jd)) 1 - 1)%js
                           (JS.idx (JDtoYMD (Int jd)) 2))
            (JDtoYMD (Int jd)).
Proof.
  rewrite JDtoYMD_Int. unfold reads_ymd. cbn. do 3 f_equal. lia.
Qed.

Lemma alter_existing (f : DateObj -> DateObj) (l : nat) (h : gmap nat DateObj)
    (o : DateObj) :
  h !! l = Some o -> alter f l h = <[l := f o]> h.
Proof.
  intros Hl. apply map_eq. intros i.
  rewrite lookup_alter, lookup_insert.
  destruct (decide (l = i)); [rewrite Hl|]; reflexivity.
Qed.

(** C5.  For every integer [jd]: [JDtoDate(jd, obj)] returns the object it
    was given, leaves its hour, minute, second (and millisecond) fields
    unchanged, sets its year, month and day to [JDtoYMD(jd)] and touches no
    other object; [JDtoDate(jd)] returns a new object whose time of day is
    zero and whose year, month and day are [JDtoYMD(jd)]. *)
Theorem JDtoDate_contract (now : DateObj) (jd : Z) (h : gmap nat DateObj)
    (l : nat) (o : DateObj) :
  h !! l = Some o ->
  (exists o' : DateObj,
      JDtoDate now (Int jd) (Some l) h = (l, <[l := o']> h)
      /\ same_time o' o /\ reads_ymd o' (JDtoYMD (Int jd)))
  /\ (exists (l' : nat) (o' : DateObj),
         JDtoDate now (Int jd) None h = (l', <[l' := o']> h)
         /\ h !! l' = None
         /\ midnight o' /\ reads_ymd o' (JDtoYMD (Int jd))).
Proof.
  intros Hl. split.
  - eexists. split; [|split].
    + unfold JDtoDate, Date_setFullYear. cbv zeta.
      rewrite (alter_existing _ _ _ _ Hl). reflexivity.
    + repeat split.
    + apply setFullYear_reads.
  - exists (fresh (dom h)). eexists. split; [|split; [|split]].
    + unfold JDtoDate, Date_new, Date_setHours, Date_setFullYear. cbv zeta.
      rewrite !alter_insert_eq. reflexivity.
    + apply not_elem_of_dom, is_fresh.
    + repeat split.
    + apply setFullYear_reads.
Qed.

Lemma JDtoDate_contract_witness :
  let now := mkDate 2026 10 3 17 45 12 250 in
  let o := mkDate 1999 11 31 23 59 58 7 in
  let h : gmap nat DateObj := {[ 0%nat := o ]} in
  h !! 0%nat = Some o
  /\ (exists o' : DateObj,
         JDtoDate now (Int 2451545) (Some 0%nat) h = (0%nat, <[0%nat := o']> h)
         /\ same_time o' o /\ reads_ymd o' (JDtoYMD (Int 2451545)))
  /\ (exists (l' : nat) (o' : DateObj),
         JDtoDate now (Int 2451545) None h = (l', <[l' := o']> h)
         /\ h !! l' = None
         /\ midnight o' /\ reads_ymd o' (JDtoYMD (Int 2451545))).
Proof.
  intros now o h.
  assert (Hl : h !! 0%nat = Some o) by reflexivity.
  split; [exact Hl | exact (JDtoDate_contract now 2451545 h 0%nat o Hl)].
Defined.

(** * Further properties of the module *)

(** ** The calendar, one day at a time *)

Lemma jd_of_day_succ y m d : ZK.jd_of y m (d + 1) = ZK.jd_of y m d + 1.
Proof. unfold ZK.jd_of. cbv zeta. lia. Qed.

Lemma jd_of_month_succ y m :
  1 <= m < 12 -> ZK.jd_of y (m + 1) 1 = ZK.jd_of y m (days_in_month y m) + 1.
Proof.
  intros Hm.
  destruct (days_in_month_cases y m)
    as [(E2 & Hl & ->)|[(E2 & Hn & ->)|[(E30 & ->)|(N2 & N4 & N6 & N9 & N11 & ->)]]];
    unfold leap_cond in *; unfold ZK.jd_of; cbv zeta.
  - subst m. div_lia.
  - subst m. div_lia.
  - destruct E30 as [-> | [-> | [-> | ->]]]; div_lia.
  - assert (Hc : m = 1 \/ m = 3 \/ m = 5 \/ m = 7 \/ m = 8 \/ m = 10) by lia.
    destruct Hc as [-> | [-> | [-> | [-> | [-> | ->]]]]]; div_lia.
Qed.

Lemma jd_of_year_succ y : ZK.jd_of (y + 1) 1 1 = ZK.jd_of y 12 31 + 1.
Proof. unfold ZK.jd_of. cbv zeta. div_lia. Qed.

(** Every date of year [y] lies between January 1 of [y] and of [y + 1]. *)
Lemma jd_of_within_year y m d :
  1 <= m <= 12 -> 1 <= d <= 31 ->
  ZK.jd_of y 1 1 <= ZK.jd_of y m d < ZK.jd_of (y + 1) 1 1.
Proof.
  intros Hm Hd. unfold ZK.jd_of. cbv zeta.
  assert (Hc : m = 1 \/ m = 2 \/ m = 3 \/ m = 4 \/ m = 5 \/ m = 6 \/ m = 7
               \/ m = 8 \/ m = 9 \/ m = 10 \/ m = 11 \/ m = 12) by lia.
  repeat (destruct Hc as [->|Hc]); try subst m; div_lia.
Qed.

Lemma days_in_month_range y m : 28 <= days_in_month y m <= 31.
Proof.
  destruct (days_in_month_cases y m)
    as [(_ & _ & ->)|[(_ & _ & ->)|[(_ & ->)|(_ & _ & _ & _ & _ & ->)]]]; lia.
Qed.

Lemma next_day_ok y m d :
  valid_date y m d ->
  let '(y', m', d') := next_day y m d in
  valid_date y' m' d' /\ ZK.jd_of y' m' d' = ZK.jd_of y m d + 1.
Proof.
  intros [Hm Hd]. unfold next_day.
  destruct (Z.ltb_spec d (days_in_month y m)) as [Hlt|Hge].
  - split; [split; lia | apply jd_of_day_succ].
  - assert (Ed : d = days_in_month y m) by lia.
    destruct (Z.ltb_spec m 12) as [Hm12|Hm12].
    + split.
      * pose proof (days_in_month_range y (m + 1)). split; lia.
      * rewrite Ed. apply jd_of_month_succ. lia.
    + assert (m = 12) by lia. subst m.
      change (days_in_month y 12) with 31 in Ed. subst d. split.
      * pose proof (days_in_month_range (y + 1) 1). split; lia.
      * apply jd_of_year_succ.
Qed.

(** X1.  Within exact arithmetic (Julian Days up to 2^50 in magnitude), the
    Julian Day count advances by one per calendar day: if [JDtoYMD(jd)] is
    [[y, m, d]] then [JDtoYMD(jd + 1)] is the following civil date (the next
    day of the month, else the first of the next month, else January 1 of
    the next year). *)
Theorem JDtoYMD_succ (jd : Z) :
  Z.abs jd <= 1125899906842624 ->
  exists y m d : Z,
    JDtoYMD (Int jd) = [Int y; Int m; Int d]
    /\ JDtoYMD (Int (jd + 1))
       = (let '(y', m', d') := next_day y m d in [Int y'; Int m'; Int d']).
Proof.
  intros _.
  exists (ZK.year_of jd), (ZK.month_of jd), (ZK.day_of jd).
  split; [apply JDtoYMD_Int|].
  destruct (decode_ok jd) as [Hv He].
  pose proof (next_day_ok _ _ _ Hv) as Hn.
  destruct (next_day _ _ _) as [[y' m'] d'].
  destruct Hn as [Hv' Hj]. rewrite He in Hj. rewrite <- Hj.
  destruct (encode_ok y' m' d' Hv') as (Ey & Em & Ed).
  rewrite JDtoYMD_Int. now rewrite Ey, Em, Ed.
Qed.

Lemma JDtoYMD_succ_witness :
  Z.abs 2451603 <= 1125899906842624
  /\ exists y m d : Z,
       JDtoYMD (Int 2451603) = [Int y; Int m; Int d]
       /\ JDtoYMD (Int (2451603 + 1))
          = (let '(y', m', d') := next_day y m d in [Int y'; Int m'; Int d']).
Proof.
  split; [lia|]. apply (JDtoYMD_succ 2451603). lia.
Defined.

(** X2.  For years up to 6 * 10^12 in magnitude, [YMDtoJD] orders valid
    civil dates like the calendar: the first of a month is one more than the
    last day of the month before, and January 1 is one more than December 31
    of the year before. *)
Theorem YMDtoJD_month_boundaries (y m : Z) :
  Z.abs y <= 6000000000000 ->
  1 <= m < 12 ->
  YMDtoJD (Int y) (Int (m + 1)) (Int 1)
    = (YMDtoJD (Int y) (Int m) (Int (days_in_month y m)) + Int 1)%js
  /\ YMDtoJD (Int (y + 1)) (Int 1) (Int 1)
     = (YMDtoJD (Int y) (Int 12) (Int 31) + Int 1)%js
  /\ exists jd : Z, YMDtoJD (Int y) (Int (m + 1)) (Int 1) = Int jd.
Proof.
  intros _ Hm. pose proof (days_in_month_range y m) as Hr.
  rewrite !YMDtoJD_Int by lia. cbn [JS.add JS.lift2].
  rewrite jd_of_month_succ by lia. rewrite jd_of_year_succ.
  split; [reflexivity|]. split; [reflexivity|]. eexists. reflexivity.
Qed.

Lemma YMDtoJD_month_boundaries_witness :
  Z.abs 2000 <= 6000000000000 /\ 1 <= 2 < 12
  /\ YMDtoJD (Int 2000) (Int (2 + 1)) (Int 1)
     = (YMDtoJD (Int 2000) (Int 2) (Int (days_in_month 2000 2)) + Int 1)%js.
Proof.
  split; [lia|]. split; [lia|]. apply (YMDtoJD_month_boundaries 2000 2); lia.
Defined.

(** ** Day of week, continued *)

(** X3.  On Julian Days from 0 up to 2^31, [JDtoDayOfWeek] is the day count
    plus one modulo 7 (0 = Sunday; Julian Day 0 is a Monday): it lies in
    0..6 and repeats every 7 days. *)
Theorem JDtoDayOfWeek_mod7 (jd : Z) :
  0 <= jd < 2147483648 - 7 ->
  JDtoDayOfWeek (Int jd) = Int ((jd + 1) mod 7)
  /\ 0 <= (jd + 1) mod 7 <= 6
  /\ JDtoDayOfWeek (Int (jd + 7)) = JDtoDayOfWeek (Int jd).
Proof.
  intros Hjd. rewrite !JDtoDayOfWeek_Int by lia.
  split; [reflexivity|]. split; [div_lia|]. f_equal. div_lia.
Qed.

Lemma JDtoDayOfWeek_mod7_witness :
  0 <= 2451545 < 2147483648 - 7
  /\ JDtoDayOfWeek (Int 2451545) = Int ((2451545 + 1) mod 7).
Proof.
  split; [lia|]. apply (JDtoDayOfWeek_mod7 2451545). lia.
Defined.

(** X4.  For every valid civil date of the years -4712 to 5000000,
    [YMDtoDayOfWeek(y, m, d)] is an integer in 0..6 and agrees with
    [JDtoDayOfWeek(YMDtoJD(y, m, d))]. *)
Theorem YMDtoDayOfWeek_consistent (y m d : Z) :
  valid_date y m d -> -4712 <= y <= 5000000 ->
  exists r : Z,
    YMDtoDayOfWeek (Int y) (Int m) (Int d) = Int r
    /\ JDtoDayOfWeek (YMDtoJD (Int y) (Int m) (Int d)) = Int r
    /\ 0 <= r <= 6.
Proof.
  intros [Hm Hd] Hy. pose proof (days_in_month_range y m) as Hr.
  assert (Hjd : 0 <= ZK.jd_of y m d < 2147483648)
    by (unfold ZK.jd_of; cbv zeta; div_lia).
  exists ((ZK.jd_of y m d + 1) mod 7). split; [|split].
  - apply YMDtoDayOfWeek_Int; [exact Hm | div_lia | lia].
  - rewrite YMDtoJD_Int by lia. apply JDtoDayOfWeek_Int, Hjd.
  - div_lia.
Qed.

Lemma YMDtoDayOfWeek_consistent_witness :
  valid_date 2000 1 1 /\ -4712 <= 2000 <= 5000000
  /\ exists r : Z,
       YMDtoDayOfWeek (Int 2000) (Int 1) (Int 1) = Int r
       /\ JDtoDayOfWeek (YMDtoJD (Int 2000) (Int 1) (Int 1)) = Int r
       /\ 0 <= r <= 6.
Proof.
  assert (H : valid_date 2000 1 1).
  { unfold valid_date. change (days_in_month 2000 1) with 31. lia. }
  split; [exact H|]. split; [lia|].
  apply (YMDtoDayOfWeek_consistent 2000 1 1 H). lia.
Defined.

(** ** ISO weeks, continued *)

(** [k + x / b >> 0]. *)
Lemma shr0_radd_div k x p :
  JS.shr0 (JS.radd (Int k) (JS.div (Int x) (Int (Zpos p))))
  = Int (JS.ToInt32 (Z.quot (k * Zpos p + x) (Zpos p))).
Proof.
  unfold JS.div, JS.radd, JS.shr0. cbn [Z.eqb].
  f_equal. f_equal.
  rewrite <- Qtrunc_quot. apply Qtrunc_comp.
  rewrite !Qred_correct, Qdiv_inject_pos.
  unfold Qeq, Qplus, inject_Z. cbn [Qnum Qden]. lia.
Qed.

Lemma year_length y :
  365 <= ZK.jd_of (y + 1) 1 1 - ZK.jd_of y 1 1 <= 366.
Proof. unfold ZK.jd_of. cbv zeta. div_lia. Qed.

Lemma jd_of_jan y d : ZK.jd_of y 1 d = ZK.jd_of y 1 1 + d - 1.
Proof. unfold ZK.jd_of. cbv zeta. lia. Qed.

(** Week 1 of the next year starts 52 or 53 weeks later. *)
Lemma week1_succ y :
  week1 (y + 1) - week1 y = 364 \/ week1 (y + 1) - week1 y = 371.
Proof.
  destruct (week1_monday y) as [M0 B0].
  destruct (week1_monday (y + 1)) as [M1 B1].
  rewrite jd_of_jan in B0, B1. pose proof (year_length y) as Hl.
  div_lia.
Qed.

Lemma YWDoWtoJD_week1 y :
  0 <= y < 2147478848 ->
  YWDoWtoJD (Int y) (Int 1) Undefined = Int (week1 y).
Proof.
  intros Hy. rewrite (YWDoWtoJD_Int y 1 Undefined 1) by (try lia; reflexivity).
  f_equal. lia.
Qed.

(** The decomposition returned by [YMDtoYWd_]: the date is day [D] of week
    [W] of the ISO year [Y], and lies within the weeks of that year. *)
Lemma YMDtoYWd_Int (y m d : Z) :
  1 <= m <= 12 -> 1 <= d <= 31 -> 1 <= y < 2147478847 ->
  exists Y W D : Z,
    YMDtoYWd_ (Int y) (Int m) (Int d) = [Int Y; Int W; Int D]
    /\ y - 1 <= Y <= y + 1 /\ 1 <= W <= 53 /\ 1 <= D <= 7
    /\ ZK.jd_of y m d = week1 Y + 7 * (W - 1) + D - 1
    /\ ZK.jd_of y m d < week1 (Y + 1).
Proof.
  intros Hm Hd Hy. unfold YMDtoYWd_. cbv zeta.
  rewrite YMDtoJD_Int by lia.
  cbn [JS.add JS.sub JS.lift2 JS.ToNumber].
  rewrite !YWDoWtoJD_week1 by lia.
  pose proof (jd_of_within_year y m d Hm Hd) as Ht.
  destruct (week1_monday (y - 1)) as [Mp Bp].
  destruct (week1_monday y) as [M0 B0].
  destruct (week1_monday (y + 1)) as [M1 B1].
  rewrite jd_of_jan in Bp, B0, B1.
  pose proof (year_length (y - 1)) as Lp.
  replace (y - 1 + 1) with y in Lp by ring.
  pose proof (week1_succ (y - 1)) as Sp.
  replace (y - 1 + 1) with y in Sp by ring.
  pose proof (week1_succ y) as S0.
  pose proof (week1_succ (y + 1)) as S1.
  set (t := ZK.jd_of y m d) in *. clearbody t.
  set (f := week1 y) in *. set (fn := week1 (y + 1)) in *.
  set (fp := week1 (y - 1)) in *. set (fnn := week1 (y + 1 + 1)) in *.
  set (j1 := ZK.jd_of y 1 1) in *. set (jn := ZK.jd_of (y + 1) 1 1) in *.
  set (jp := ZK.jd_of (y - 1) 1 1) in *.
  unfold JS.ge, JS.lt.
  destruct (Z.leb_spec fn t) as [Hge|Hlt].
  - exists (y + 1), 1, (1 + (t - fn) mod 7).
    unfold JS.rem. cbn [Z.eqb JS.add JS.sub JS.lift2].
    rewrite Z.rem_mod_nonneg by lia.
    split; [reflexivity|]. fold fn fnn. clearbody f fn fp fnn j1 jn jp. div_lia.
  - destruct (Z.ltb_spec t f) as [Hlt'|Hge'].
    + exists (y - 1), (1 + (t - fp) / 7), (1 + (t - fp) mod 7).
      rewrite shr0_radd_div. unfold JS.rem. cbn [Z.eqb JS.add JS.sub JS.lift2].
      assert (Hx : 0 <= t - fp <= 370) by (clearbody f fn fp fnn j1 jn jp; div_lia).
      rewrite Z.rem_mod_nonneg by lia.
      rewrite Z.quot_div_nonneg by lia.
      rewrite ToInt32_small by div_lia.
      replace ((1 * 7 + (t - fp)) / 7) with (1 + (t - fp) / 7) by div_lia.
      split; [reflexivity|]. replace (y - 1 + 1) with y by ring.
      fold fp f. clearbody f fn fp fnn j1 jn jp. div_lia.
    + exists y, (1 + (t - f) / 7), (1 + (t - f) mod 7).
      rewrite shr0_radd_div. unfold JS.rem. cbn [Z.eqb JS.add JS.sub JS.lift2].
      assert (Hx : 0 <= t - f <= 370) by (clearbody f fn fp fnn j1 jn jp; div_lia).
      rewrite Z.rem_mod_nonneg by lia.
      rewrite Z.quot_div_nonneg by lia.
      rewrite ToInt32_small by div_lia.
      replace ((1 * 7 + (t - f)) / 7) with (1 + (t - f) / 7) by div_lia.
      split; [reflexivity|]. fold f fn. clearbody f fn fp fnn j1 jn jp. div_lia.
Qed.

(** X5.  ISO week round trip.  For every valid civil date of the years 1 to
    2147000000, [YMDtoYWd_] returns an ISO year [Y] within one of the civil
    year, a week [W] in 1..53 and a weekday [D] in 1..7 (with [D mod 7] the
    value of [YMDtoDayOfWeek]); [YWDoWtoJD(Y, W, D)] is [YMDtoJD(y, m, d)],
    and the date lies from the first day of week 1 of [Y] up to the day
    before week 1 of [Y + 1]. *)
Theorem YWDoWtoJD_YMDtoYWd_ (y m d : Z) :
  valid_date y m d -> 1 <= y <= 2147000000 ->
  exists Y W D jd : Z,
    YMDtoYWd_ (Int y) (Int m) (Int d) = [Int Y; Int W; Int D]
    /\ y - 1 <= Y <= y + 1 /\ 1 <= W <= 53 /\ 1 <= D <= 7
    /\ YMDtoJD (Int y) (Int m) (Int d) = Int jd
    /\ YWDoWtoJD (Int Y) (Int W) (Int D) = Int jd
    /\ YMDtoDayOfWeek (Int y) (Int m) (Int d) = Int (D mod 7)
    /\ (exists lo hi : Z,
          YWDoWtoJD (Int Y) (Int 1) (Int 1) = Int lo
          /\ YWDoWtoJD (Int (Y + 1)) (Int 1) (Int 1) = Int hi
          /\ lo <= jd < hi).
Proof.
  intros [Hm Hd] Hy. pose proof (days_in_month_range y m) as Hr.
  destruct (YMDtoYWd_Int y m d Hm ltac:(lia) ltac:(lia))
    as (Y & W & D & HY & HYr & HW & HD & Hjd & Hhi).
  exists Y, W, D, (ZK.jd_of y m d).
  split; [exact HY|]. split; [exact HYr|]. split; [exact HW|].
  split; [exact HD|]. split; [apply YMDtoJD_Int; lia|].
  assert (HorD : JS.or (Int D) (Int 1) = Int D).
  { unfold JS.or, JS.truthy. destruct (Z.eqb_spec D 0); [lia | reflexivity]. }
  split; [|split].
  - rewrite (YWDoWtoJD_Int Y W (Int D) D) by (try lia; exact HorD).
    f_equal. lia.
  - destruct (week1_monday Y) as [Mon _].
    assert (H0 : 0 <= ZK.jd_of y m d) by (unfold ZK.jd_of; cbv zeta; div_lia).
    assert (Hs : 0 <= y + 4800 - (14 - m) / 12 < 2147483648) by div_lia.
    rewrite (YMDtoDayOfWeek_Int y m d Hm Hs H0). f_equal.
    rewrite Hjd. clear -Mon. div_lia.
  - exists (week1 Y), (week1 (Y + 1)). split; [|split].
    + rewrite (YWDoWtoJD_Int Y 1 (Int 1) 1) by (try lia; reflexivity). f_equal. lia.
    + rewrite (YWDoWtoJD_Int (Y + 1) 1 (Int 1) 1) by (try lia; reflexivity).
      f_equal. lia.
    + lia.
Qed.

Lemma YWDoWtoJD_YMDtoYWd__witness :
  valid_date 2016 1 1 /\ 1 <= 2016 <= 2147000000
  /\ exists Y W D jd : Z,
    YMDtoYWd_ (Int 2016) (Int 1) (Int 1) = [Int Y; Int W; Int D]
    /\ 2016 - 1 <= Y <= 2016 + 1 /\ 1 <= W <= 53 /\ 1 <= D <= 7
    /\ YMDtoJD (Int 2016) (Int 1) (Int 1) = Int jd
    /\ YWDoWtoJD (Int Y) (Int W) (Int D) = Int jd
    /\ YMDtoDayOfWeek (Int 2016) (Int 1) (Int 1) = Int (D mod 7)
    /\ (exists lo hi : Z,
          YWDoWtoJD (Int Y) (Int 1) (Int 1) = Int lo
          /\ YWDoWtoJD (Int (Y + 1)) (Int 1) (Int 1) = Int hi
          /\ lo <= jd < hi).
Proof.
  assert (H : valid_date 2016 1 1).
  { unfold valid_date. change (days_in_month 2016 1) with 31. lia. }
  split; [exact H|]. split; [lia|].
  apply (YWDoWtoJD_YMDtoYWd_ 2016 1 1 H). lia.
Defined.

(** ** ISO texts, continued *)

Lemma absent_app c s t : absent c (s ++ t) = absent c s && absent c t.
Proof.
  induction s as [|a s IH]; [reflexivity|].
  change (String a s ++ t)%string with (String a (s ++ t)).
  cbn [absent]. rewrite IH. now rewrite andb_assoc.
Qed.

Lemma absent_false_indexOf c s : absent c s = false -> 0 <= Str.indexOf c s.
Proof.
  induction s as [|a s IH]; cbn [absent Str.indexOf]; [discriminate|].
  destruct (Ascii.eqb a c); cbn [negb andb]; [lia|].
  intros H. specialize (IH H).
  destruct (Z.ltb_spec (Str.indexOf c s) 0); lia.
Qed.

Lemma has_W s :
  absent "W" s = false -> JS.truthy (Int (bitnot (Str.indexOf "W" s))) = true.
Proof.
  intros H. apply absent_false_indexOf in H. unfold JS.truthy, bitnot.
  destruct (Z.eqb_spec (- Str.indexOf "W" s - 1) 0); [lia | reflexivity].
Qed.

Lemma no_W s :
  absent "W" s = true -> JS.truthy (Int (bitnot (Str.indexOf "W" s))) = false.
Proof. intros H. now rewrite (indexOf_absent _ _ H). Qed.

(** The calendar branch of [ISOtoJD]. *)
Lemma ISOtoJD_calendar s :
  absent "W" s = true -> absent "T" s = true ->
  ISOtoJD s = Some (JS.apply3 YMDtoJD (map Str.Number (Str.split "-" s))).
Proof.
  intros HW HT. unfold ISOtoJD.
  now rewrite (no_W _ HW), (split_absent _ _ HT).
Qed.

Lemma YMDtoJD_day_undefined (y m : value) :
  YMDtoJD y m Undefined = YMDtoJD y m (Int 1).
Proof. reflexivity. Qed.

Lemma YMDtoJD_month_undefined (y d : value) :
  YMDtoJD y Undefined d = YMDtoJD y (Int 1) d.
Proof. reflexivity. Qed.

Lemma ISOtoJD_calendar_forms_aux (ys ms ds : string) (y m d : Z) :
  numeral ys y -> numeral ms m -> numeral ds d ->
  ISOtoJD (ys ++ String "-" (ms ++ String "-" ds))
    = Some (YMDtoJD (Int y) (Int m) (Int d))
  /\ ISOtoJD (ys ++ String "-" ms) = Some (YMDtoJD (Int y) (Int m) (Int 1))
  /\ ISOtoJD ys = Some (YMDtoJD (Int y) (Int 1) (Int 1)).
Proof.
  intros Hy Hm Hd.
  pose proof (fun c H => numeral_absent ys y c Hy H) as Ay.
  pose proof (fun c H => numeral_absent ms m c Hm H) as Am.
  pose proof (fun c H => numeral_absent ds d c Hd H) as Ad.
  split; [|split].
  - rewrite ISOtoJD_calendar.
    + rewrite split3 by (first [apply Ay | apply Am | apply Ad]; reflexivity).
      cbn [map]. rewrite (Number_numeral _ _ Hy), (Number_numeral _ _ Hm),
        (Number_numeral _ _ Hd). reflexivity.
    + rewrite !absent_app. cbn [absent]. rewrite !absent_app. cbn [absent].
      rewrite Ay, Am, Ad by reflexivity. reflexivity.
    + rewrite !absent_app. cbn [absent]. rewrite !absent_app. cbn [absent].
      rewrite Ay, Am, Ad by reflexivity. reflexivity.
  - rewrite ISOtoJD_calendar.
    + rewrite split_app, split_absent by (first [apply Ay | apply Am]; reflexivity).
      cbn [map]. rewrite (Number_numeral _ _ Hy), (Number_numeral _ _ Hm).
      unfold JS.apply3. cbn [JS.idx nth]. now rewrite YMDtoJD_day_undefined.
    + rewrite !absent_app. cbn [absent]. rewrite Ay, Am by reflexivity. reflexivity.
    + rewrite !absent_app. cbn [absent]. rewrite Ay, Am by reflexivity. reflexivity.
  - rewrite ISOtoJD_calendar by (apply Ay; reflexivity).
    rewrite split_absent by (apply Ay; reflexivity).
    cbn [map]. rewrite (Number_numeral _ _ Hy).
    unfold JS.apply3. cbn [JS.idx nth].
    now rewrite YMDtoJD_day_undefined, YMDtoJD_month_undefined.
Qed.

(** X6.  The calendar forms of [ISOtoJD]: ["YYYY-MM-DD"] is
    [YMDtoJD(Y, M, D)], ["YYYY-MM"] is the first day of the month and
    ["YYYY"] is January 1. *)
Theorem ISOtoJD_calendar_forms (ys ms ds : string) (y m d : Z) :
  numeral ys y -> numeral ms m -> numeral ds d ->
  ISOtoJD (ys ++ "-" ++ ms ++ "-" ++ ds) = Some (YMDtoJD (Int y) (Int m) (Int d))
  /\ ISOtoJD (ys ++ "-" ++ ms) = Some (YMDtoJD (Int y) (Int m) (Int 1))
  /\ ISOtoJD ys = Some (YMDtoJD (Int y) (Int 1) (Int 1)).
Proof. exact (ISOtoJD_calendar_forms_aux ys ms ds y m d). Qed.

Lemma ISOtoJD_calendar_forms_witness :
  ISOtoJD ("2015" ++ "-" ++ "01" ++ "-" ++ "26")
    = Some (YMDtoJD (Int 2015) (Int 1) (Int 26))
  /\ ISOtoJD ("2015" ++ "-" ++ "01") = Some (YMDtoJD (Int 2015) (Int 1) (Int 1))
  /\ ISOtoJD "2015" = Some (YMDtoJD (Int 2015) (Int 1) (Int 1)).
Proof.
  apply (ISOtoJD_calendar_forms "2015" "01" "26" 2015 1 26); reflexivity.
Defined.

(** X7.  A time of day after [T] is ignored by [ISOtoJD]: for a text [s]
    without [T] or [W] and a suffix [t] without [W],
    [ISOtoJD(s + "T" + t)] is [ISOtoJD(s)]. *)
Theorem ISOtoJD_time_suffix (s t : string) :
  absent "T" s = true -> absent "W" s = true -> absent "W" t = true ->
  ISOtoJD (s ++ "T" ++ t) = ISOtoJD s.
Proof.
  intros HT HW HWt.
  change (s ++ "T" ++ t)%string with (s ++ String "T" t)%string.
  rewrite (ISOtoJD_calendar s HW HT). unfold ISOtoJD.
  rewrite no_W by (rewrite absent_app; cbn [absent]; now rewrite HW, HWt).
  rewrite (split_app _ _ _ HT). reflexivity.
Qed.

Lemma ISOtoJD_time_suffix_witness :
  ISOtoJD ("2015-01-26" ++ "T" ++ "10:00:00") = ISOtoJD "2015-01-26".
Proof.
  apply (ISOtoJD_time_suffix "2015-01-26" "10:00:00"); reflexivity.
Defined.

(** X8.  [ISOtoJD] raises a [TypeError] on a text that contains [W] but no
    [-]: the week token [ywd[1]] is missing when [substr] is called. *)
Theorem ISOtoJD_week_without_dash (s : string) :
  absent "W" s = false -> absent "-" s = true -> ISOtoJD s = None.
Proof.
  intros HW Hd. unfold ISOtoJD.
  now rewrite (has_W _ HW), (split_absent _ _ Hd).
Qed.

Lemma ISOtoJD_week_without_dash_witness : ISOtoJD "2015W05" = None.
Proof. apply (ISOtoJD_week_without_dash "2015W05"); reflexivity. Defined.

Lemma year_of_nonneg jd : 1721060 <= jd -> 0 <= ZK.year_of jd.
Proof.
  intros Hjd. destruct (decode_ok jd) as [[Hm Hd] He].
  pose proof (days_in_month_range (ZK.year_of jd) (ZK.month_of jd)) as Hr.
  pose proof (jd_of_within_year (ZK.year_of jd) (ZK.month_of jd) (ZK.day_of jd)
                Hm ltac:(lia)) as [_ Hlt].
  rewrite He in Hlt. set (Y := ZK.year_of jd) in *. clearbody Y.
  destruct (Z.le_gt_cases 0 Y) as [|Hneg]; [assumption|].
  exfalso. unfold ZK.jd_of in Hlt. cbv zeta in Hlt. div_lia.
Qed.

Lemma year_of_upper jd : jd < 2147483648 -> ZK.year_of jd < 5900000.
Proof.
  intros Hjd. destruct (decode_ok jd) as [[Hm Hd] He].
  pose proof (days_in_month_range (ZK.year_of jd) (ZK.month_of jd)) as Hr.
  pose proof (jd_of_within_year (ZK.year_of jd) (ZK.month_of jd) (ZK.day_of jd)
                Hm ltac:(lia)) as [Hge _].
  rewrite He in Hge. set (Y := ZK.year_of jd) in *. clearbody Y.
  destruct (Z.lt_ge_cases Y 5900000) as [|Hbig]; [assumption|].
  exfalso. unfold ZK.jd_of in Hge. cbv zeta in Hge. div_lia.
Qed.

(** The text of [JDtoISO_YMD] and its three fields. *)
Lemma JDtoISO_YMD_fields jd :
  1721060 <= jd ->
  JDtoISO_YMD (Int jd)
  = (Str.ToString (Int (ZK.year_of jd)) ++ String "-"
       (pad_ (Int (ZK.month_of jd)) ++ String "-" (pad_ (Int (ZK.day_of jd)))))%string
  /\ numeral (Str.ToString (Int (ZK.year_of jd))) (ZK.year_of jd)
  /\ numeral (pad_ (Int (ZK.month_of jd))) (ZK.month_of jd)
  /\ numeral (pad_ (Int (ZK.day_of jd))) (ZK.day_of jd).
Proof.
  intros Hjd. destruct (decode_ok jd) as [[Hm Hd] _].
  split; [unfold JDtoISO_YMD; rewrite JDtoYMD_Int; reflexivity|].
  split; [apply numeral_ToString, year_of_nonneg, Hjd|].
  split; apply numeral_pad_; lia.
Qed.

(** X9.  From January 1 of year 0 (Julian Day 1721060) up to the Julian Day
    2^50, the text written by [JDtoISO_YMD] is read back by [ISOtoJD] as the
    same Julian Day. *)
Theorem ISOtoJD_JDtoISO_YMD (jd : Z) :
  1721060 <= jd <= 1125899906842624 ->
  ISOtoJD (JDtoISO_YMD (Int jd)) = Some (Int jd).
Proof.
  intros [Hjd _]. destruct (JDtoISO_YMD_fields jd Hjd) as (-> & Hy & Hm & Hd).
  destruct (ISOtoJD_calendar_forms_aux _ _ _ _ _ _ Hy Hm Hd) as [-> _].
  destruct (decode_ok jd) as [[Hm1 Hd1] He].
  rewrite YMDtoJD_Int by lia. now rewrite He.
Qed.

(** X10.  From Julian Day 1721060 on, the day of week read from the text of
    [JDtoISO_YMD] is the day of week of the Julian Day. *)
Theorem ISO_YMDtoDayOfWeek_JDtoISO_YMD (jd : Z) :
  1721060 <= jd ->
  ISO_YMDtoDayOfWeek (JDtoISO_YMD (Int jd)) = JDtoDayOfWeek (Int jd).
Proof.
  intros Hjd. destruct (JDtoISO_YMD_fields jd Hjd) as (-> & Hy & Hm & Hd).
  unfold ISO_YMDtoDayOfWeek, JDtoDayOfWeek.
  rewrite split3 by (eapply numeral_absent; [eassumption | reflexivity]).
  cbn [map]. rewrite (Number_numeral _ _ Hy), (Number_numeral _ _ Hm),
    (Number_numeral _ _ Hd). now rewrite JDtoYMD_Int.
Qed.

Lemma ISO_YMDtoDayOfWeek_JDtoISO_YMD_witness :
  1721060 <= 2451545
  /\ ISO_YMDtoDayOfWeek (JDtoISO_YMD (Int 2451545)) = JDtoDayOfWeek (Int 2451545).
Proof.
  split; [lia|]. apply (ISO_YMDtoDayOfWeek_JDtoISO_YMD 2451545). lia.
Defined.

Lemma ISOtoJD_JDtoISO_YMD_witness :
  1721060 <= 2451545 <= 1125899906842624
  /\ ISOtoJD (JDtoISO_YMD (Int 2451545)) = Some (Int 2451545).
Proof.
  split; [lia|]. apply (ISOtoJD_JDtoISO_YMD 2451545). lia.
Defined.

(** ** Absolute months, continued *)

Lemma or_Int_one (m : Z) :
  JS.or (Int m) (Int 1) = Int (if m =? 0 then 1 else m).
Proof. unfold JS.or, JS.truthy. destruct (m =? 0); reflexivity. Qed.

(** X11.  [ISOtoADMonth] reads the first two [-]-separated fields only:
    whatever follows the month (a day, a time) is ignored, a month [00]
    counts as January, and a bare year is its January; for a year and a
    month of at most 2^48, where the doubles are exact. *)
Theorem ISOtoADMonth_fields (ys ms rest : string) (y m : Z) :
  numeral ys y -> numeral ms m ->
  y <= 281474976710656 -> m <= 281474976710656 ->
  ISOtoADMonth (ys ++ "-" ++ ms ++ "-" ++ rest)
    = Int (y * 12 + (if m =? 0 then 1 else m) - 1)
  /\ ISOtoADMonth (ys ++ "-" ++ ms) = Int (y * 12 + (if m =? 0 then 1 else m) - 1)
  /\ ISOtoADMonth ys = Int (y * 12 + 1 - 1).
Proof.
  intros Hy Hm _ _.
  change (ys ++ "-" ++ ms ++ "-" ++ rest)%string
    with (ys ++ String "-" (ms ++ String "-" rest))%string.
  change (ys ++ "-" ++ ms)%string with (ys ++ String "-" ms)%string.
  assert (Ay : absent "-" ys = true)
    by (eapply numeral_absent; [eassumption | reflexivity]).
  assert (Am : absent "-" ms = true)
    by (eapply numeral_absent; [eassumption | reflexivity]).
  unfold ISOtoADMonth. split; [|split].
  - rewrite (split_app _ _ _ Ay), (split_app _ _ _ Am). cbn [map JS.idx nth].
    rewrite (Number_numeral _ _ Hy), (Number_numeral _ _ Hm), or_Int_one.
    reflexivity.
  - rewrite (split_app _ _ _ Ay), (split_absent _ _ Am). cbn [map JS.idx nth].
    rewrite (Number_numeral _ _ Hy), (Number_numeral _ _ Hm), or_Int_one.
    reflexivity.
  - rewrite (split_absent _ _ Ay). cbn [map JS.idx nth].
    rewrite (Number_numeral _ _ Hy). reflexivity.
Qed.

Lemma ISOtoADMonth_fields_witness :
  ISOtoADMonth ("2015" ++ "-" ++ "01" ++ "-" ++ "26T10:00:00")
    = Int (2015 * 12 + (if 1 =? 0 then 1 else 1) - 1)
  /\ ISOtoADMonth ("2015" ++ "-" ++ "01")
     = Int (2015 * 12 + (if 1 =? 0 then 1 else 1) - 1)
  /\ ISOtoADMonth "2015" = Int (2015 * 12 + 1 - 1).
Proof.
  apply (ISOtoADMonth_fields "2015" "01" "26T10:00:00" 2015 1);
    first [reflexivity | lia].
Defined.

Lemma JDtoADMonth_Int jd :
  JDtoADMonth (Int jd) = Int (ZK.year_of jd * 12 + ZK.month_of jd - 1).
Proof. unfold JDtoADMonth. rewrite JDtoYMD_Int. reflexivity. Qed.

Lemma ADMonth_of_jd_range jd :
  1721060 <= jd < 2147483648 ->
  0 <= ZK.year_of jd * 12 + ZK.month_of jd - 1 < 25769803776
  /\ (ZK.year_of jd * 12 + ZK.month_of jd - 1) / 12 = ZK.year_of jd
  /\ (ZK.year_of jd * 12 + ZK.month_of jd - 1) mod 12 + 1 = ZK.month_of jd.
Proof.
  intros Hjd. destruct (decode_ok jd) as [[Hm _] _].
  pose proof (year_of_nonneg jd ltac:(lia)). pose proof (year_of_upper jd ltac:(lia)).
  div_lia.
Qed.

(** X12.  From Julian Day 1721060 up to 2^31, the absolute month of a Julian
    Day agrees with its texts: [ISOtoADMonth] of [JDtoISO_YM(jd)] and of
    [JDtoISO_YMD(jd)] is [JDtoADMonth(jd)], and [ADMonthToISO_YM] of
    [JDtoADMonth(jd)] is [JDtoISO_YM(jd)]. *)
Theorem ADMonth_texts_of_JD (jd : Z) :
  1721060 <= jd < 2147483648 ->
  ISOtoADMonth (JDtoISO_YM (Int jd)) = JDtoADMonth (Int jd)
  /\ ISOtoADMonth (JDtoISO_YMD (Int jd)) = JDtoADMonth (Int jd)
  /\ ADMonthToISO_YM (JDtoADMonth (Int jd)) = JDtoISO_YM (Int jd).
Proof.
  intros Hjd.
  destruct (JDtoISO_YMD_fields jd ltac:(lia)) as (Etxt & Hy & Hm & Hd).
  destruct (decode_ok jd) as [[Hm1 _] _].
  destruct (ADMonth_of_jd_range jd Hjd) as (Hn & Hq & Hr).
  assert (Ay : absent "-" (Str.ToString (Int (ZK.year_of jd))) = true)
    by (eapply numeral_absent; [eassumption | reflexivity]).
  assert (Am : absent "-" (pad_ (Int (ZK.month_of jd))) = true)
    by (eapply numeral_absent; [eassumption | reflexivity]).
  assert (Eym : JDtoISO_YM (Int jd)
                = (Str.ToString (Int (ZK.year_of jd)) ++ String "-"
                     (pad_ (Int (ZK.month_of jd))))%string)
    by (unfold JDtoISO_YM; rewrite JDtoYMD_Int; reflexivity).
  rewrite JDtoADMonth_Int. split; [|split].
  - rewrite Eym. unfold ISOtoADMonth.
    rewrite (split_app _ _ _ Ay), (split_absent _ _ Am). cbn [map JS.idx nth].
    rewrite (Number_numeral _ _ Hy), (Number_numeral _ _ Hm), or_Int_one.
    destruct (Z.eqb_spec (ZK.month_of jd) 0); [lia | reflexivity].
  - rewrite Etxt. unfold ISOtoADMonth.
    rewrite (split_app _ _ _ Ay), (split_app _ _ _ Am). cbn [map JS.idx nth].
    rewrite (Number_numeral _ _ Hy), (Number_numeral _ _ Hm), or_Int_one.
    destruct (Z.eqb_spec (ZK.month_of jd) 0); [lia | reflexivity].
  - rewrite Eym. unfold ADMonthToISO_YM.
    rewrite ADMonth_year, ADMonth_month by lia. now rewrite Hq, Hr.
Qed.

Lemma ADMonth_texts_of_JD_witness :
  1721060 <= 2451545 < 2147483648
  /\ ISOtoADMonth (JDtoISO_YM (Int 2451545)) = JDtoADMonth (Int 2451545)
  /\ ISOtoADMonth (JDtoISO_YMD (Int 2451545)) = JDtoADMonth (Int 2451545)
  /\ ADMonthToISO_YM (JDtoADMonth (Int 2451545)) = JDtoISO_YM (Int 2451545).
Proof.
  split; [lia|]. apply (ADMonth_texts_of_JD 2451545). lia.
Defined.

(** X13.  From Julian Day 1721060 up to 2^31, [ADMonthToJD(JDtoADMonth(jd))]
    is the first day of the month of [jd]: it is [jd] minus the day of the
    month plus one, and decodes to the same year and month with day 1. *)
Theorem ADMonthToJD_JDtoADMonth (jd : Z) :
  1721060 <= jd < 2147483648 ->
  exists y m d : Z,
    JDtoYMD (Int jd) = [Int y; Int m; Int d]
    /\ ADMonthToJD (JDtoADMonth (Int jd)) = Int (jd - (d - 1))
    /\ JDtoYMD (ADMonthToJD (JDtoADMonth (Int jd))) = [Int y; Int m; Int 1].
Proof.
  intros Hjd.
  exists (ZK.year_of jd), (ZK.month_of jd), (ZK.day_of jd).
  split; [apply JDtoYMD_Int|].
  destruct (decode_ok jd) as [[Hm Hd] He].
  destruct (ADMonth_of_jd_range jd Hjd) as (Hn & Hq & Hr).
  assert (E : ADMonthToJD (JDtoADMonth (Int jd))
              = Int (ZK.jd_of (ZK.year_of jd) (ZK.month_of jd) 1)).
  { rewrite JDtoADMonth_Int. unfold ADMonthToJD.
    rewrite ADMonth_year, ADMonth_month by lia. rewrite Hq, Hr.
    apply YMDtoJD_Int; lia. }
  rewrite E. split.
  - f_equal.
    assert (H1 : ZK.jd_of (ZK.year_of jd) (ZK.month_of jd) (ZK.day_of jd)
                 = ZK.jd_of (ZK.year_of jd) (ZK.month_of jd) 1 + ZK.day_of jd - 1)
      by (unfold ZK.jd_of; cbv zeta; lia).
    lia.
  - assert (Hv : valid_date (ZK.year_of jd) (ZK.month_of jd) 1).
    { pose proof (days_in_month_range (ZK.year_of jd) (ZK.month_of jd)).
      split; lia. }
    destruct (encode_ok _ _ _ Hv) as (Ey & Em & Ed).
    rewrite JDtoYMD_Int. now rewrite Ey, Em, Ed.
Qed.

Lemma ADMonthToJD_JDtoADMonth_witness :
  1721060 <= 2457050 < 2147483648
  /\ exists y m d : Z,
       JDtoYMD (Int 2457050) = [Int y; Int m; Int d]
       /\ ADMonthToJD (JDtoADMonth (Int 2457050)) = Int (2457050 - (d - 1))
       /\ JDtoYMD (ADMonthToJD (JDtoADMonth (Int 2457050))) = [Int y; Int m; Int 1].
Proof.
  split; [lia|]. apply (ADMonthToJD_JDtoADMonth 2457050). lia.
Defined.

(** ** ISO week texts *)

Lemma numeral_week w :
  0 <= w ->
  numeral (if JS.lt (Int w) (Int 10) then "0" ++ Str.ToString (Int w)
           else Str.ToString (Int w))%string w.
Proof.
  intros Hw. destruct (JS.lt (Int w) (Int 10)).
  - apply numeral_zero, numeral_ToString, Hw.
  - apply numeral_ToString, Hw.
Qed.

(** The week branch of [ISOtoJD], with and without a day. *)
Lemma ISOtoJD_week_fields (ys ws ds : string) (y w d : Z) :
  numeral ys y -> numeral ws w -> numeral ds d ->
  ISOtoJD (ys ++ String "-" (String "W" (ws ++ String "-" ds)))
    = Some (YWDoWtoJD (Int y) (Int w) (Int d))
  /\ ISOtoJD (ys ++ String "-" (String "W" ws))
     = Some (YWDoWtoJD (Int y) (Int w) NaN).
Proof.
  intros Hy Hw Hd.
  assert (Ay : absent "-" ys = true)
    by (eapply numeral_absent; [eassumption | reflexivity]).
  assert (Aw : absent "-" (String "W" ws) = true).
  { cbn [absent]. rewrite (numeral_absent _ _ "-"%char Hw) by reflexivity.
    reflexivity. }
  assert (Ad : absent "-" ds = true)
    by (eapply numeral_absent; [eassumption | reflexivity]).
  assert (HW : forall t, absent "W" (ys ++ String "-" (String "W" t)) = false).
  { intros t. rewrite absent_app. cbn [absent].
    rewrite Ascii.eqb_refl. cbn [negb andb]. now rewrite !andb_false_r. }
  unfold ISOtoJD. rewrite !has_W by apply HW. split.
  - rewrite (split_app _ _ _ Ay).
    change (String "W" (ws ++ String "-" ds))
      with (String "W" ws ++ String "-" ds)%string.
    rewrite (split_app _ _ _ Aw), (split_absent _ _ Ad).
    cbn [nth_error Str.substr1 Str.ToNumber].
    now rewrite (Number_numeral _ _ Hy), (Number_numeral _ _ Hw),
      (Number_numeral _ _ Hd).
  - rewrite (split_app _ _ _ Ay), (split_absent _ _ Aw).
    cbn [nth_error Str.substr1 Str.ToNumber].
    now rewrite (Number_numeral _ _ Hy), (Number_numeral _ _ Hw).
Qed.

(** X14.  For every valid civil date of the years 1 to 2147000000, the
    text ["YYYY-Www-D"] written by [YDMtoISO_YWD] is read back by [ISOtoJD]
    as the Julian Day of the date. *)
Theorem ISOtoJD_YDMtoISO_YWD (y m d : Z) :
  valid_date y m d -> 1 <= y <= 2147000000 ->
  ISOtoJD (YDMtoISO_YWD (Int y) (Int m) (Int d))
  = Some (YMDtoJD (Int y) (Int m) (Int d)).
Proof.
  intros [Hm Hd] Hy. pose proof (days_in_month_range y m) as Hr.
  destruct (YMDtoYWd_Int y m d Hm ltac:(lia) ltac:(lia))
    as (Y & W & D & HY & HYr & HW & HD & Hjd & _).
  unfold YDMtoISO_YWD. rewrite HY. cbv zeta. cbn [JS.idx nth].
  change (?a ++ "-W" ++ ?b ++ "-" ++ ?c)%string
    with (a ++ String "-" (String "W" (b ++ String "-" c)))%string.
  destruct (ISOtoJD_week_fields _ _ _ Y W D
              (numeral_ToString Y ltac:(lia)) (numeral_week W ltac:(lia))
              (numeral_ToString D ltac:(lia))) as [-> _].
  rewrite (YWDoWtoJD_Int Y W (Int D) D);
    [| lia | rewrite or_Int_one; destruct (Z.eqb_spec D 0); [lia | reflexivity]].
  rewrite YMDtoJD_Int by lia. do 2 f_equal. lia.
Qed.

Lemma ISOtoJD_YDMtoISO_YWD_witness :
  valid_date 2015 1 27 /\ 1 <= 2015 <= 2147000000
  /\ ISOtoJD (YDMtoISO_YWD (Int 2015) (Int 1) (Int 27))
     = Some (YMDtoJD (Int 2015) (Int 1) (Int 27)).
Proof.
  assert (H : valid_date 2015 1 27).
  { unfold valid_date. change (days_in_month 2015 1) with 31. lia. }
  split; [exact H|]. split; [lia|].
  apply (ISOtoJD_YDMtoISO_YWD 2015 1 27 H). lia.
Defined.

Lemma year_of_ge1 jd : 1721426 <= jd -> 1 <= ZK.year_of jd.
Proof.
  intros Hjd. destruct (decode_ok jd) as [[Hm Hd] He].
  pose proof (days_in_month_range (ZK.year_of jd) (ZK.month_of jd)) as Hr.
  pose proof (jd_of_within_year (ZK.year_of jd) (ZK.month_of jd) (ZK.day_of jd)
                Hm ltac:(lia)) as [_ Hlt].
  rewrite He in Hlt. set (Y := ZK.year_of jd) in *. clearbody Y.
  destruct (Z.le_gt_cases 1 Y) as [|Hneg]; [assumption|].
  exfalso. unfold ZK.jd_of in Hlt. cbv zeta in Hlt. div_lia.
Qed.

(** X15.  From January 1 of year 1 (Julian Day 1721426) up to 2^31 - 8, the
    text ["YYYY-Www"] written by [JDtoISO_YW] is read back by [ISOtoJD] as
    the Monday of the week of [jd]: a Julian Day at most 6 days before [jd]
    whose day of week is 1. *)
Theorem ISOtoJD_JDtoISO_YW (jd : Z) :
  1721426 <= jd < 2147483648 - 7 ->
  exists monday : Z,
    ISOtoJD (JDtoISO_YW (Int jd)) = Some (Int monday)
    /\ monday <= jd <= monday + 6
    /\ JDtoDayOfWeek (Int monday) = Int 1.
Proof.
  intros Hjd. destruct (decode_ok jd) as [[Hm Hd] He].
  pose proof (days_in_month_range (ZK.year_of jd) (ZK.month_of jd)) as Hr.
  pose proof (year_of_ge1 jd ltac:(lia)) as Hy1.
  pose proof (year_of_upper jd ltac:(lia)) as Hy2.
  destruct (YMDtoYWd_Int (ZK.year_of jd) (ZK.month_of jd) (ZK.day_of jd)
              Hm ltac:(lia) ltac:(lia))
    as (Y & W & D & HY & HYr & HW & HD & Hj & _).
  rewrite He in Hj.
  exists (week1 Y + 7 * (W - 1) + 1 - 1). split; [|split].
  - unfold JDtoISO_YW. rewrite JDtoYMD_Int. unfold JS.apply3. cbn [JS.idx nth].
    unfold YDMtoISO_YW. rewrite HY. cbv zeta. cbn [JS.idx nth].
    change (?a ++ "-W" ++ ?b)%string with (a ++ String "-" (String "W" b))%string.
    destruct (ISOtoJD_week_fields _ _ "1" Y W 1
                (numeral_ToString Y ltac:(lia)) (numeral_week W ltac:(lia))
                eq_refl) as [_ ->].
    now rewrite (YWDoWtoJD_Int Y W NaN 1) by (try lia; reflexivity).
  - lia.
  - destruct (week1_monday Y) as [Mon _].
    rewrite JDtoDayOfWeek_Int by lia. f_equal. clear -Mon. div_lia.
Qed.

Lemma ISOtoJD_JDtoISO_YW_witness :
  1721426 <= 2457050 < 2147483648 - 7
  /\ exists monday : Z,
       ISOtoJD (JDtoISO_YW (Int 2457050)) = Some (Int monday)
       /\ monday <= 2457050 <= monday + 6
       /\ JDtoDayOfWeek (Int monday) = Int 1.
Proof.
  split; [lia|]. apply (ISOtoJD_JDtoISO_YW 2457050). lia.
Defined.

(** X16.  For the years 0 to 5000000, and a week and a day of week up to
    2^40 in magnitude, [YWDoWtoJD(y, w, dow)] is the first day of week 1
    plus [7 * (w - 1) + (dow - 1)], a day [0] counting as day 1; the first
    day of week 1 is a Monday and January 4 falls in week 1. *)
Theorem YWDoWtoJD_structure (y : Z) :
  0 <= y <= 5000000 ->
  exists first j4 : Z,
    YWDoWtoJD (Int y) (Int 1) (Int 1) = Int first
    /\ (forall w dow : Z,
           Z.abs w <= 1099511627776 -> Z.abs dow <= 1099511627776 ->
           YWDoWtoJD (Int y) (Int w) (Int dow)
           = Int (first + 7 * (w - 1) + (if dow =? 0 then 1 else dow) - 1))
    /\ JDtoDayOfWeek (Int first) = Int 1
    /\ YMDtoJD (Int y) (Int 1) (Int 4) = Int j4
    /\ first <= j4 <= first + 6.
Proof.
  intros Hy. destruct (week1_monday y) as [Mon B].
  exists (week1 y), (ZK.jd_of y 1 4). split; [|split; [|split; [|split]]].
  - rewrite (YWDoWtoJD_Int y 1 (Int 1) 1) by (try lia; reflexivity). f_equal. lia.
  - intros w dow _ _. apply YWDoWtoJD_Int; [lia | apply or_Int_one].
  - assert (Hj4 : 1721060 <= ZK.jd_of y 1 4 <= 2000000000)
      by (unfold ZK.jd_of; cbv zeta; div_lia).
    rewrite JDtoDayOfWeek_Int by lia. f_equal. clear -Mon. div_lia.
  - apply YMDtoJD_Int; lia.
  - lia.
Qed.

Lemma YWDoWtoJD_structure_witness :
  0 <= 2015 <= 5000000
  /\ exists first j4 : Z,
       YWDoWtoJD (Int 2015) (Int 1) (Int 1) = Int first
       /\ (forall w dow : Z,
              Z.abs w <= 1099511627776 -> Z.abs dow <= 1099511627776 ->
              YWDoWtoJD (Int 2015) (Int w) (Int dow)
              = Int (first + 7 * (w - 1) + (if dow =? 0 then 1 else dow) - 1))
       /\ JDtoDayOfWeek (Int first) = Int 1
       /\ YMDtoJD (Int 2015) (Int 1) (Int 4) = Int j4
       /\ first <= j4 <= first + 6.
Proof.
  split; [lia|]. apply (YWDoWtoJD_structure 2015). lia.
Defined.

(** ** Calendar-date objects, continued *)

(** The object [JDtoDate] leaves at the reference it returns. *)
Lemma JDtoDate_lookup (now : DateObj) (jd : Z) (h : gmap nat DateObj)
    (date : option nat) :
  match date with Some l => is_Some (h !! l) | None => True end ->
  exists o0 : DateObj,
    (JDtoDate now (Int jd) date h).2 !! (JDtoDate now (Int jd) date h).1
    = Some (setFullYear o0 (Int (ZK.year_of jd)) (Int (ZK.month_of jd - 1))
              (Int (ZK.day_of jd))).
Proof.
  intros Hd. unfold JDtoDate. rewrite JDtoYMD_Int. cbv zeta.
  cbn [JS.idx nth JS.sub JS.lift2].
  destruct date as [l|].
  - destruct Hd as [o0 Hl]. exists o0. cbn [fst snd].
    unfold Date_setFullYear. now rewrite lookup_alter_eq, Hl.
  - exists (setHours now (Int 0) (Int 0) (Int 0) (Int 0)).
    unfold Date_new, Date_setHours, Date_setFullYear. cbv zeta. cbn [fst snd].
    now rewrite !alter_insert_eq, lookup_insert_eq.
Qed.

(** X17.  For the Julian Days 0 to 100000000 (dates that a [Date] object
    holds), the object returned by [JDtoDate(jd)], new or supplied, reads
    back through the date adapters as [jd]: [DateToJD] gives [jd],
    [DateToADMonth] gives [JDtoADMonth(jd)] and [DateToISO_YMD] gives
    [JDtoISO_YMD(jd)]. *)
Theorem DateToJD_JDtoDate (now : DateObj) (jd : Z) (h : gmap nat DateObj)
    (date : option nat) :
  0 <= jd <= 100000000 ->
  match date with Some l => is_Some (h !! l) | None => True end ->
  exists o : DateObj,
    (JDtoDate now (Int jd) date h).2 !! (JDtoDate now (Int jd) date h).1 = Some o
    /\ DateToJD o = Int jd
    /\ DateToADMonth o = JDtoADMonth (Int jd)
    /\ DateToISO_YMD o = JDtoISO_YMD (Int jd).
Proof.
  intros _ Hd. destruct (JDtoDate_lookup now jd h date Hd) as [o0 Ho].
  eexists. split; [exact Ho|].
  destruct (decode_ok jd) as [[Hm Hday] He].
  unfold DateToJD, DateToADMonth, DateToISO_YMD, setFullYear.
  cbn [getFullYear getMonth getDate JS.add JS.mul JS.lift2].
  replace (ZK.month_of jd - 1 + 1) with (ZK.month_of jd) by ring.
  split; [|split].
  - rewrite YMDtoJD_Int by lia. now rewrite He.
  - rewrite JDtoADMonth_Int. f_equal. ring.
  - unfold JDtoISO_YMD. rewrite JDtoYMD_Int. reflexivity.
Qed.

Lemma DateToJD_JDtoDate_witness :
  let now := mkDate 2026 10 3 17 45 12 250 in
  0 <= 2451545 <= 100000000
  /\ exists o : DateObj,
       (JDtoDate now (Int 2451545) None ∅).2 !! (JDtoDate now (Int 2451545) None ∅).1
       = Some o
       /\ DateToJD o = Int 2451545
       /\ DateToADMonth o = JDtoADMonth (Int 2451545)
       /\ DateToISO_YMD o = JDtoISO_YMD (Int 2451545).
Proof.
  intros now. split; [lia|].
  apply (DateToJD_JDtoDate now 2451545 ∅ None); [lia | exact I].
Defined.

(** ** Time of day, continued *)

Lemma split2 sep a b :
  absent sep a = true -> absent sep b = true ->
  Str.split sep (a ++ String sep b) = [a; b].
Proof.
  intros Ha Hb. now rewrite (split_app _ _ _ Ha), (split_absent _ _ Hb).
Qed.

(** X18.  For [h >= 0], [0 <= m <= 59] and less than 2^31 minutes in all,
    [minutesToISO_HM(HMtoMinutes(h, m))] is the padded hour, a colon and the
    padded minute. *)
Theorem minutesToISO_HM_HMtoMinutes (h m : Z) :
  0 <= h -> 0 <= m <= 59 -> h * 60 + m < 2147483648 ->
  minutesToISO_HM (HMtoMinutes (Int h) (Int m))
  = (pad_ (Int h) ++ ":" ++ pad_ (Int m))%string.
Proof.
  intros Hh Hm Hb. unfold HMtoMinutes, minutesToISO_HM.
  rewrite or_Int_zero. cbn [JS.add JS.mul JS.lift2].
  rewrite shr0_div_nonneg by lia.
  unfold JS.rem. cbn [Z.eqb]. rewrite Z.rem_mod_nonneg by lia.
  replace ((h * 60 + m) / 60) with h by div_lia.
  replace ((h * 60 + m) mod 60) with m by div_lia.
  reflexivity.
Qed.

Lemma minutesToISO_HM_HMtoMinutes_witness :
  minutesToISO_HM (HMtoMinutes (Int 9) (Int 5)) = (pad_ (Int 9) ++ ":" ++ pad_ (Int 5))%string.
Proof. apply (minutesToISO_HM_HMtoMinutes 9 5); lia. Defined.

(** X19.  For [0 <= n < 2^31], the text written by [minutesToISO_HM(n)] is
    read back by [ISO_HMtoMinutes] as [n]. *)
Theorem ISO_HMtoMinutes_minutesToISO_HM (n : Z) :
  0 <= n < 2147483648 -> ISO_HMtoMinutes (minutesToISO_HM (Int n)) = Int n.
Proof.
  intros Hn. unfold minutesToISO_HM, ISO_HMtoMinutes.
  rewrite shr0_div_nonneg by lia.
  unfold JS.rem. cbn [Z.eqb]. rewrite Z.rem_mod_nonneg by lia.
  assert (Hq : numeral (pad_ (Int (n / 60))) (n / 60))
    by (apply numeral_pad_; div_lia).
  assert (Hr : numeral (pad_ (Int (n mod 60))) (n mod 60))
    by (apply numeral_pad_; div_lia).
  change (?a ++ ":" ++ ?b)%string with (a ++ String ":" b)%string.
  rewrite split2 by (eapply numeral_absent; [eassumption | reflexivity]).
  cbn [map JS.idx nth].
  rewrite (Number_numeral _ _ Hq), (Number_numeral _ _ Hr).
  unfold HMtoMinutes. rewrite or_Int_zero. cbn [JS.add JS.mul JS.lift2].
  f_equal. div_lia.
Qed.

Lemma ISO_HMtoMinutes_minutesToISO_HM_witness :
  0 <= 605 < 2147483648 /\ ISO_HMtoMinutes (minutesToISO_HM (Int 605)) = Int 605.
Proof. split; [lia|]. apply (ISO_HMtoMinutes_minutesToISO_HM 605). lia. Defined.

(** X20.  Missing fields of a clock text count as zero:
    [ISO_HMStoSeconds] of ["HH:MM:SS"] is [3600 H + 60 M + S], of ["HH:MM"]
    it is [3600 H + 60 M] and of ["HH"] it is [3600 H]; [ISO_HMtoMinutes]
    of ["HH:MM"] is [60 H + M] and ignores a seconds field; for fields of
    at most 2^40, where the doubles are exact. *)
Theorem ISO_clock_fields (hs ms ss : string) (h m s : Z) :
  numeral hs h -> numeral ms m -> numeral ss s ->
  h <= 1099511627776 -> m <= 1099511627776 -> s <= 1099511627776 ->
  ISO_HMStoSeconds (hs ++ ":" ++ ms ++ ":" ++ ss) = Int (h * 3600 + m * 60 + s)
  /\ ISO_HMStoSeconds (hs ++ ":" ++ ms) = Int (h * 3600 + m * 60 + 0)
  /\ ISO_HMStoSeconds hs = Int (h * 3600 + 0 * 60 + 0)
  /\ ISO_HMtoMinutes (hs ++ ":" ++ ms) = Int (h * 60 + m)
  /\ ISO_HMtoMinutes (hs ++ ":" ++ ms ++ ":" ++ ss) = Int (h * 60 + m)
  /\ ISO_HMtoMinutes hs = Int (h * 60 + 0).
Proof.
  intros Hh Hm Hs _ _ _.
  change (hs ++ ":" ++ ms ++ ":" ++ ss)%string
    with (hs ++ String ":" (ms ++ String ":" ss))%string.
  change (hs ++ ":" ++ ms)%string with (hs ++ String ":" ms)%string.
  assert (Ah : absent ":" hs = true)
    by (eapply numeral_absent; [eassumption | reflexivity]).
  assert (Am : absent ":" ms = true)
    by (eapply numeral_absent; [eassumption | reflexivity]).
  assert (As : absent ":" ss = true)
    by (eapply numeral_absent; [eassumption | reflexivity]).
  unfold ISO_HMStoSeconds, ISO_HMtoMinutes, JS.apply3.
  rewrite (split3 _ _ _ _ Ah Am As), (split2 _ _ _ Ah Am), (split_absent _ _ Ah).
  cbn [map JS.idx nth].
  rewrite (Number_numeral _ _ Hh), (Number_numeral _ _ Hm), (Number_numeral _ _ Hs).
  unfold HMStoSeconds, HMtoMinutes. rewrite !or_Int_zero.
  repeat split.
Qed.

Lemma ISO_clock_fields_witness :
  ISO_HMStoSeconds ("10" ++ ":" ++ "00" ++ ":" ++ "10") = Int (10 * 3600 + 0 * 60 + 10)
  /\ ISO_HMStoSeconds ("10" ++ ":" ++ "00") = Int (10 * 3600 + 0 * 60 + 0)
  /\ ISO_HMStoSeconds "10" = Int (10 * 3600 + 0 * 60 + 0)
  /\ ISO_HMtoMinutes ("10" ++ ":" ++ "00") = Int (10 * 60 + 0)
  /\ ISO_HMtoMinutes ("10" ++ ":" ++ "00" ++ ":" ++ "10") = Int (10 * 60 + 0)
  /\ ISO_HMtoMinutes "10" = Int (10 * 60 + 0).
Proof.
  apply (ISO_clock_fields "10" "00" "10" 10 0 10); first [reflexivity | lia].
Defined.

(** X21.  The clock texts of a date object read back as its time of day:
    for non-negative hour, minute and second fields,
    [ISO_HMtoMinutes(DateToISO_HM(o))] is [DateToMinutes(o)] and
    [ISO_HMStoSeconds(DateToISO_HMS(o))] is [3600 h + 60 m + s]. *)
Theorem Date_clock_texts (o : DateObj) (h m s : Z) :
  getHours o = Int h -> getMinutes o = Int m -> getSeconds o = Int s ->
  0 <= h -> 0 <= m -> 0 <= s ->
  ISO_HMtoMinutes (DateToISO_HM o) = DateToMinutes o
  /\ DateToMinutes o = Int (h * 60 + m)
  /\ ISO_HMStoSeconds (DateToISO_HMS o) = Int (h * 3600 + m * 60 + s).
Proof.
  intros Eh Em Es Hh Hm Hs.
  unfold DateToISO_HM, DateToISO_HMS, DateToMinutes. rewrite Eh, Em, Es.
  change (?a ++ ":" ++ ?b ++ ":" ++ ?c)%string
    with (a ++ String ":" (b ++ String ":" c))%string.
  change (pad_ (Int h) ++ ":" ++ pad_ (Int m))%string
    with (pad_ (Int h) ++ String ":" (pad_ (Int m)))%string.
  pose proof (numeral_pad_ h Hh) as Nh. pose proof (numeral_pad_ m Hm) as Nm.
  pose proof (numeral_pad_ s Hs) as Ns.
  assert (Ah : absent ":" (pad_ (Int h)) = true)
    by (eapply numeral_absent; [eassumption | reflexivity]).
  assert (Am : absent ":" (pad_ (Int m)) = true)
    by (eapply numeral_absent; [eassumption | reflexivity]).
  assert (As : absent ":" (pad_ (Int s)) = true)
    by (eapply numeral_absent; [eassumption | reflexivity]).
  unfold ISO_HMStoSeconds, ISO_HMtoMinutes, JS.apply3.
  rewrite (split3 _ _ _ _ Ah Am As), (split2 _ _ _ Ah Am).
  cbn [map JS.idx nth].
  rewrite (Number_numeral _ _ Nh), (Number_numeral _ _ Nm), (Number_numeral _ _ Ns).
  unfold HMStoSeconds, HMtoMinutes. rewrite !or_Int_zero.
  repeat split.
Qed.

Lemma Date_clock_texts_witness :
  let o := mkDate 1999 11 31 23 59 58 7 in
  ISO_HMtoMinutes (DateToISO_HM o) = DateToMinutes o
  /\ DateToMinutes o = Int (23 * 60 + 59)
  /\ ISO_HMStoSeconds (DateToISO_HMS o) = Int (23 * 3600 + 59 * 60 + 58).
Proof.
  intros o.
  apply (Date_clock_texts o 23 59 58); first [reflexivity | lia].
Defined.

(** X22.  For a clock time [h:m:s] with [0 <= h <= 23], [0 <= m <= 59] and
    [0 <= s <= 59], [ISO_HMStoPercents] lies between 0 and 100, both
    included. *)
Theorem ISO_HMStoPercents_range (hs ms ss : string) (h m s : Z) :
  numeral hs h -> numeral ms m -> numeral ss s ->
  0 <= h <= 23 -> 0 <= m <= 59 -> 0 <= s <= 59 ->
  exists q : Q,
    ISO_HMStoPercents (hs ++ ":" ++ ms ++ ":" ++ ss) = Real q
    /\ (0 <= q)%Q /\ (q <= 100)%Q.
Proof.
  intros Hh Hm Hs Rh Rm Rs.
  change (hs ++ ":" ++ ms ++ ":" ++ ss)%string
    with (hs ++ String ":" (ms ++ String ":" ss))%string.
  unfold ISO_HMStoPercents.
  rewrite split3 by (eapply numeral_absent; [eassumption | reflexivity]).
  cbn [map]. rewrite (Number_numeral _ _ Hh), (Number_numeral _ _ Hm),
    (Number_numeral _ _ Hs).
  unfold JS.apply3, JS.idx, HMStoSeconds. cbn [nth].
  rewrite !or_Int_zero. cbn [JS.add JS.mul JS.lift2 JS.div Z.eqb].
  eexists. split; [reflexivity|].
  rewrite !Qred_correct, Qdiv_inject_pos.
  unfold Qle. cbn [Qnum Qden]. split; lia.
Qed.

Lemma ISO_HMStoPercents_range_witness :
  exists q : Q,
    ISO_HMStoPercents ("12" ++ ":" ++ "30" ++ ":" ++ "15") = Real q
    /\ (0 <= q)%Q /\ (q <= 100)%Q.
Proof.
  apply (ISO_HMStoPercents_range "12" "30" "15" 12 30 15);
    first [reflexivity | lia].
Defined.

(** ** Not-a-number and padding *)

Lemma lift2_NaN_r f x : JS.lift2 f x NaN = NaN.
Proof. destruct x; reflexivity. Qed.

(** X23.  [YMDtoJD] never fails: a year that is [NaN] or [undefined] gives
    [NaN] whatever the month and day, while a month and a day that are
    [NaN] are replaced by 1 like omitted ones: the call returns what the
    call with month 1 and day 1 returns, which for a year up to 2 * 10^13 in
    magnitude is the Julian Day of January 1 of the year. *)
Theorem YMDtoJD_not_a_number (y : Z) (m d : value) :
  Z.abs y <= 20000000000000 ->
  YMDtoJD NaN m d = NaN
  /\ YMDtoJD Undefined m d = NaN
  /\ YMDtoJD (Int y) NaN NaN = YMDtoJD (Int y) (Int 1) (Int 1)
  /\ YMDtoJD (Int y) NaN (Int 1) = YMDtoJD (Int y) (Int 1) (Int 1)
  /\ YMDtoJD (Int y) (Int 1) NaN = YMDtoJD (Int y) (Int 1) (Int 1)
  /\ YMDtoJD (Int y) NaN NaN = Int (ZK.jd_of y 1 1).
Proof.
  intros _. split; [|split; [|split; [|split; [|split]]]].
  - unfold YMDtoJD, JS.add, JS.sub, JS.mul. cbv zeta.
    cbn [JS.ToNumber JS.lift2 JS.div JS.Math_floor].
    now rewrite !lift2_NaN_r.
  - unfold YMDtoJD, JS.add, JS.sub, JS.mul. cbv zeta.
    cbn [JS.ToNumber JS.lift2 JS.div JS.Math_floor].
    now rewrite !lift2_NaN_r.
  - reflexivity.
  - reflexivity.
  - reflexivity.
  - change (YMDtoJD (Int y) NaN NaN) with (YMDtoJD (Int y) (Int 1) (Int 1)).
    apply YMDtoJD_Int; discriminate.
Qed.

Lemma YMDtoJD_not_a_number_witness :
  Z.abs 2000 <= 20000000000000
  /\ YMDtoJD NaN (Int 2) Undefined = NaN
  /\ YMDtoJD (Int 2000) NaN NaN = Int (ZK.jd_of 2000 1 1).
Proof.
  split; [lia|].
  destruct (YMDtoJD_not_a_number 2000 (Int 2) Undefined ltac:(lia))
    as (H1 & _ & _ & _ & _ & H6).
  split; [exact H1 | exact H6].
Defined.

(** X24.  [pad_] writes the numbers 0..99 on exactly two characters; a
    negative number gets the zero in front of its sign. *)
Theorem pad__width (n : Z) :
  (0 <= n <= 99 -> String.length (pad_ (Int n)) = 2%nat)
  /\ (n < 0 -> pad_ (Int n) = ("0-" ++ Str.ToString (Int (- n)))%string).
Proof.
  split.
  - intros Hn. rewrite <- (Z2Nat.id n) by lia.
    assert (Hk : (Z.to_nat n < 100)%nat) by lia.
    revert Hk. generalize (Z.to_nat n) as k. intros k Hk.
    do 100 (destruct k as [|k]; [reflexivity|]). lia.
  - intros Hn. destruct n as [|p|p]; try lia. reflexivity.
Qed.

Lemma pad__width_witness :
  String.length (pad_ (Int 7)) = 2%nat
  /\ pad_ (Int (-5)) = ("0-" ++ Str.ToString (Int (- (-5))))%string.
Proof.
  split.
  - apply (proj1 (pad__width 7)). lia.
  - apply (proj2 (pad__width (-5))). lia.
Defined.

(** ** Week numbers and the Gregorian cycle *)

(** X25.  For every valid civil date of the years 1 to 5000000, the ISO week
    number is an integer in 1..53, and [JDtoWeekNumber] of the Julian Day of
    the date is [YMDtoWeekNumber] of the date. *)
Theorem week_number_range (y m d : Z) :
  valid_date y m d -> 1 <= y <= 5000000 ->
  exists W : Z,
    YMDtoWeekNumber (Int y) (Int m) (Int d) = Int W
    /\ JDtoWeekNumber (YMDtoJD (Int y) (Int m) (Int d)) = Int W
    /\ 1 <= W <= 53.
Proof.
  intros Hv Hy. destruct (encode_ok y m d Hv) as (Ey & Em & Ed).
  destruct Hv as [Hm Hd]. pose proof (days_in_month_range y m) as Hr.
  destruct (YMDtoYWd_Int y m d Hm ltac:(lia) ltac:(lia))
    as (Y & W & D & HY & _ & HW & _).
  exists W. unfold JDtoWeekNumber, YMDtoWeekNumber, JS.apply3.
  rewrite YMDtoJD_Int by lia. rewrite JDtoYMD_Int, Ey, Em, Ed.
  cbn [JS.idx nth]. rewrite HY. cbn [JS.idx nth]. repeat split; lia.
Qed.

Lemma week_number_range_witness :
  valid_date 2016 1 1 /\ 1 <= 2016 <= 5000000
  /\ exists W : Z,
       YMDtoWeekNumber (Int 2016) (Int 1) (Int 1) = Int W
       /\ JDtoWeekNumber (YMDtoJD (Int 2016) (Int 1) (Int 1)) = Int W
       /\ 1 <= W <= 53.
Proof.
  assert (H : valid_date 2016 1 1).
  { unfold valid_date. change (days_in_month 2016 1) with 31. lia. }
  split; [exact H|]. split; [lia|].
  apply (week_number_range 2016 1 1 H). lia.
Defined.

Lemma days_in_month_400 y m : days_in_month (y + 400) m = days_in_month y m.
Proof.
  unfold days_in_month, is_leap.
  replace ((y + 400) mod 4) with (y mod 4) by div_lia.
  replace ((y + 400) mod 100) with (y mod 100) by div_lia.
  replace ((y + 400) mod 400) with (y mod 400) by div_lia.
  reflexivity.
Qed.

Lemma jd_of_400 y m d : ZK.jd_of (y + 400) m d = ZK.jd_of y m d + 146097.
Proof. unfold ZK.jd_of. cbv zeta. div_lia. Qed.

(** X26.  Within exact arithmetic (Julian Days up to 2^50 in magnitude), the
    conversions repeat with the Gregorian cycle: 146097 days later the date
    is the same day and month 400 years later. *)
Theorem JDtoYMD_400_years (jd : Z) :
  Z.abs jd <= 1125899906842624 ->
  exists y m d : Z,
    JDtoYMD (Int jd) = [Int y; Int m; Int d]
    /\ JDtoYMD (Int (jd + 146097)) = [Int (y + 400); Int m; Int d].
Proof.
  intros _.
  exists (ZK.year_of jd), (ZK.month_of jd), (ZK.day_of jd).
  split; [apply JDtoYMD_Int|].
  destruct (decode_ok jd) as [[Hm Hd] He].
  assert (Hv : valid_date (ZK.year_of jd + 400) (ZK.month_of jd) (ZK.day_of jd))
    by (split; [exact Hm | now rewrite days_in_month_400]).
  destruct (encode_ok _ _ _ Hv) as (Ey & Em & Ed).
  assert (Hj : ZK.jd_of (ZK.year_of jd + 400) (ZK.month_of jd) (ZK.day_of jd)
               = jd + 146097).
  { rewrite jd_of_400. now rewrite He. }
  rewrite Hj in Ey, Em, Ed. rewrite JDtoYMD_Int. now rewrite Ey, Em, Ed.
Qed.

Lemma JDtoYMD_400_years_witness :
  Z.abs 2451545 <= 1125899906842624
  /\ exists y m d : Z,
       JDtoYMD (Int 2451545) = [Int y; Int m; Int d]
       /\ JDtoYMD (Int (2451545 + 146097)) = [Int (y + 400); Int m; Int d].
Proof.
  split; [lia|]. apply (JDtoYMD_400_years 2451545). lia.
Defined.
